(** * Dining philosophers with asymmetric chopstick pick-up (src/main.cpp)

    The program starts one thread per philosopher; every thread runs the
    endless loop of [philosopher], and the threads only interact through the
    array [chopsticks] of binary semaphores.  The development models

    - the loop body of [philosopher] as a list of instructions, one per
      statement of the source, with the index arithmetic of the source
      ([int] as [Z], [%] as [Z.rem]);
    - [std::binary_semaphore] as a counter with [acquire] (blocks at 0) and
      [release] (undefined behaviour above 1);
    - the whole program as an interleaving step function over the state
      "semaphore counters + one program counter per started thread + the
      loop variable of [main]";

    and proves mutual exclusion, absence of deadlock, the pick-up order and
    the absence of undefined behaviour for every number [N >= 2] of
    philosophers, [NUM_PHILOSOPHERS = 5] being the value of the program. *)

From Stdlib Require Import ZArith List Bool Lia.
From stdpp Require Import base numbers list.

(** ** Constants of the source *)

(** [constexpr int NUM_PHILOSOPHERS = 5;] *)
Definition NUM_PHILOSOPHERS : Z := 5.

(** [std::this_thread::sleep_for(std::chrono::milliseconds(3000))] in
    [think] and in [eat]. *)
Definition THINK_MS : Z := 3000.
Definition EAT_MS : Z := 3000.

(** ** Instructions *)

Inductive Side := Left | Right.

(** The messages handed to [logWithTimestamp] (colours and the timestamp are
    presentation only). *)
Inductive Msg :=
| IsThinking
| ThoughtFor
| IsHungry
| PickedUp (side : Side) (c : Z)
| IsEating
| AteFor
| PutDown.

Inductive Instr :=
| Log (m : Msg)
| Sleep (ms : Z)
| Acquire (c : Z)   (* chopsticks[c].acquire() *)
| Release (c : Z).  (* chopsticks[c].release() *)

(** [void think(...)]: log, sleep, log. *)
Definition think : list Instr :=
  [Log IsThinking; Sleep THINK_MS; Log ThoughtFor].

(** [void eat(...)]: log, sleep, log. *)
Definition eat : list Instr :=
  [Log IsEating; Sleep EAT_MS; Log AteFor].

Inductive FaultKind :=
| OutOfBounds    (* chopsticks[c] with c outside the array *)
| SemOverflow.   (* release() on a binary semaphore whose counter is 1 *)

Inductive SemResult :=
| SemOk (sems : list Z)
| SemWait
| SemUB (f : FaultKind).

(** [chopsticks[c]]: the index is an [int]. *)
Definition sem_at (sems : list Z) (c : Z) : option Z :=
  if (c <? 0)%Z then None else sems !! Z.to_nat c.

Definition sem_set (sems : list Z) (c : Z) (v : Z) : list Z :=
  <[Z.to_nat c := v]> sems.

(** [std::binary_semaphore::acquire]: decrement the counter when it is
    positive, wait otherwise. *)
Definition acquire (c : Z) (sems : list Z) : SemResult :=
  match sem_at sems c with
  | None => SemUB OutOfBounds
  | Some v => if (0 <? v)%Z then SemOk (sem_set sems c (v - 1)%Z) else SemWait
  end.

(** [std::binary_semaphore::release]: increment the counter; the precondition
    is that the counter stays at most [max() = 1]. *)
Definition release (c : Z) (sems : list Z) : SemResult :=
  match sem_at sems c with
  | None => SemUB OutOfBounds
  | Some v => if (v <? 1)%Z then SemOk (sem_set sems c (v + 1)%Z) else SemUB SemOverflow
  end.

Definition exec (ins : Instr) (sems : list Z) : SemResult :=
  match ins with
  | Log _ | Sleep _ => SemOk sems
  | Acquire c => acquire c sems
  | Release c => release c sems
  end.

(** ** Threads and the program state *)

Record Thread := mkThread { th_id : Z; th_pc : nat }.

Record State := mkState {
  chopsticks : list Z;          (* counters of the semaphores *)
  philosophers : list Thread;   (* the threads started so far, in slot order *)
  main_i : Z                    (* the loop variable of main *)
}.

Inductive Label :=
| Spawned (i : Z)
| Did (id : Z) (ins : Instr).

Inductive Outcome :=
| Next (l : Label) (s : State)
| Blocked
| Fault (f : FaultKind)
| Halted.

Inductive Actor :=
| Main
| Philosopher (k : nat).

Section Program.

Variable N : Z.

Definition leftChopstick (philosopherID : Z) : Z := philosopherID.

(** [(philosopherID + 1) % NUM_PHILOSOPHERS]; the sum cannot overflow, a
    started id being below [N], itself an [int]. *)
Definition rightChopstick (philosopherID : Z) : Z :=
  Z.rem (philosopherID + 1) N.

(** The body of [while (true)] in [philosopher]. *)
Definition philosopher (philosopherID : Z) : list Instr :=
  let left := leftChopstick philosopherID in
  let right := rightChopstick philosopherID in
  think ++
  [Log IsHungry] ++
  (if (Z.rem philosopherID 2 =? 0)%Z then
     [Acquire right; Log (PickedUp Right right);
      Acquire left; Log (PickedUp Left left)]
   else
     [Acquire left; Log (PickedUp Left left);
      Acquire right; Log (PickedUp Right right)]) ++
  eat ++
  [Release left; Release right; Log PutDown].

(** The statement a thread executes next. *)
Definition fetch (t : Thread) : option Instr :=
  philosopher (th_id t) !! th_pc t.

(** Move to the following statement; after the last one the loop starts
    over. *)
Definition advance (t : Thread) : Thread :=
  let pc' := S (th_pc t) in
  mkThread (th_id t)
           (if (pc' <? length (philosopher (th_id t)))%nat then pc' else 0%nat).

Definition step_philosopher (k : nat) (s : State) : Outcome :=
  match philosophers s !! k with
  | None => Halted
  | Some t =>
      match fetch t with
      | None => Halted
      | Some ins =>
          match exec ins (chopsticks s) with
          | SemOk sems' =>
              Next (Did (th_id t) ins)
                   (mkState sems' (<[k := advance t]> (philosophers s)) (main_i s))
          | SemWait => Blocked
          | SemUB f => Fault f
          end
      end
  end.

(** [main]: the loop [for (int i = 0; i < NUM_PHILOSOPHERS; i++)] starts
    thread [i]; then [join] waits for the first thread, which never returns.
    Without any thread, [main] returns. *)
Definition step_main (s : State) : Outcome :=
  if (main_i s <? N)%Z then
    Next (Spawned (main_i s))
         (mkState (chopsticks s)
                  (philosophers s ++ [mkThread (main_i s) 0])
                  (main_i s + 1)%Z)
  else
    match philosophers s with
    | [] => Halted
    | _ :: _ => Blocked
    end.

Definition step (a : Actor) (s : State) : Outcome :=
  match a with
  | Main => step_main s
  | Philosopher k => step_philosopher k s
  end.

(** The state at program start: every semaphore of the array is constructed
    with 1 (the source lists the five constructors of its five semaphores),
    no thread is started, and [i] is 0. *)
Definition init : State :=
  mkState (replicate (Z.to_nat N) 1%Z) [] 0%Z.

(** Runs, with the sequence of steps taken, oldest first. *)
Inductive run : list Label -> State -> Prop :=
| run_init : run [] init
| run_step tr s a l s' :
    run tr s -> step a s = Next l s' -> run (tr ++ [l]) s'.

Definition reachable (s : State) : Prop := exists tr, run tr s.

End Program.

(** ** Who holds a chopstick *)

(** A semaphore has no owner.  Philosopher [id] holds chopstick [c] at the
    end of a run when its latest operation on [chopsticks[c]] in that run is
    an [acquire] that returned. *)
Definition holds_upd (id c : Z) (h : bool) (l : Label) : bool :=
  match l with
  | Did id' (Acquire c') => if (id' =? id)%Z && (c' =? c)%Z then true else h
  | Did id' (Release c') => if (id' =? id)%Z && (c' =? c)%Z then false else h
  | _ => h
  end.

Definition holds (tr : list Label) (id c : Z) : bool :=
  fold_left (holds_upd id c) tr false.

(** The same bookkeeping along the statements one thread has executed in the
    current round of its loop. *)
Definition held_upd (c : Z) (h : bool) (ins : Instr) : bool :=
  match ins with
  | Acquire c' => if (c' =? c)%Z then true else h
  | Release c' => if (c' =? c)%Z then false else h
  | _ => h
  end.

Definition held_in (done : list Instr) (c : Z) : bool :=
  fold_left (held_upd c) done false.

Definition holding (N : Z) (t : Thread) (c : Z) : bool :=
  held_in (take (th_pc t) (philosopher N (th_id t))) c.

(** The number of started threads that hold chopstick [c]. *)
Definition holders (N : Z) (s : State) (c : Z) : nat :=
  length (filter (fun t => holding N t c = true) (philosophers s)).

(** A philosopher is blocked when its thread waits in [acquire]. *)
Definition blocked (N : Z) (s : State) (k : nat) : Prop :=
  step N (Philosopher k) s = Blocked.

(** A philosopher eats from the return of its second [acquire] to its first
    [release]: it holds both of its chopsticks; the call of [eat] lies in
    between. *)
Definition Eating (N : Z) (s : State) (k : nat) : Prop :=
  exists t, philosophers s !! k = Some t /\
            holding N t (leftChopstick (th_id t)) = true /\
            holding N t (rightChopstick N (th_id t)) = true.

(** The thread is inside the call [eat(philosopherID, philosopherColor)]:
    its next statement is one of those of [eat], which follow the eight
    statements up to the second pick-up message. *)
Definition in_eat (s : State) (k : nat) : Prop :=
  exists t, philosophers s !! k = Some t /\
            8 <= th_pc t < 8 + length eat.

(** Chopstick [c] occurs in the code of philosopher [id]. *)
Definition uses (N : Z) (id c : Z) : Prop :=
  In (Acquire c) (philosopher N id) \/ In (Release c) (philosopher N id).

(** The chopsticks a thread acquires, in program order, and the subsequence
    of a run made of the acquisitions of one philosopher. *)
Definition acquired_by (id : Z) (tr : list Label) : list Z :=
  flat_map (fun l => match l with
                     | Did id' (Acquire c) => if (id' =? id)%Z then [c] else []
                     | _ => []
                     end) tr.

Fixpoint alternation (n : nat) (a b : Z) : list Z :=
  match n with
  | O => []
  | S n' => a :: alternation n' b a
  end.

(** A schedule: which actor moves at each step. *)
Fixpoint play (N : Z) (sched : list Actor) (s : State) : option (list Label * State) :=
  match sched with
  | [] => Some ([], s)
  | a :: rest =>
      match step N a s with
      | Next l s' =>
          match play N rest s' with
          | Some (tr, s'') => Some (l :: tr, s'')
          | None => None
          end
      | _ => None
      end
  end.

(** ** Notions used in the statements *)

(** The started thread of philosopher [id], if any. *)
Definition thread_of (s : State) (id : Z) : option Thread :=
  if (id <? 0)%Z then None else philosophers s !! Z.to_nat id.

(** What the program counter of philosopher [id] says about chopstick [c]. *)
Definition holding_id (N : Z) (s : State) (id c : Z) : bool :=
  match thread_of s id with
  | Some t => holding N t c
  | None => false
  end.

(** The invariant of the running program: the array keeps its size, [main]
    has started the threads 0 .. i-1, every thread is inside its loop body,
    and the counter of a semaphore plus the number of its holders is 1. *)
Record wf (N : Z) (s : State) : Prop := mk_wf {
  wf_sems : length (chopsticks s) = Z.to_nat N;
  wf_main : main_i s = Z.of_nat (length (philosophers s));
  wf_started : (main_i s <= N)%Z;
  wf_thread : forall k t, philosophers s !! k = Some t ->
                th_id t = Z.of_nat k /\ (th_pc t < 14)%nat;
  wf_count : forall c, (0 <= c < N)%Z ->
                exists v, sem_at (chopsticks s) c = Some v /\ (0 <= v)%Z /\
                          (v + Z.of_nat (holders N s c) = 1)%Z
}.

(** The ids [main] has passed to the threads it started, in order. *)
Definition spawned (tr : list Label) : list Z :=
  flat_map (fun l => match l with Spawned i => [i] | _ => [] end) tr.

(** The chopstick taken first and the one taken second. *)
Definition first_choice (N id : Z) : Z :=
  if (Z.rem id 2 =? 0)%Z then rightChopstick N id else leftChopstick id.

Definition second_choice (N id : Z) : Z :=
  if (Z.rem id 2 =? 0)%Z then leftChopstick id else rightChopstick N id.

(** 1 between the two acquisitions of a round, 0 elsewhere. *)
Definition phase (pc : nat) : nat :=
  if (5 <=? pc)%nat && (pc <=? 6)%nat then 1%nat else 0%nat.

(** ** Three runs of the program *)

(** In the program itself: [main] has started the five threads,
    philosophers 1, 2 and 4 have each picked up their first chopstick, and
    philosophers 0 and 3 wait for theirs. *)
Definition busy_schedule : list Actor :=
  [Main; Main; Main; Main; Main] ++
  concat (map (fun k => repeat (Philosopher k) 5) [1; 2; 4]%nat) ++
  concat (map (fun k => repeat (Philosopher k) 4) [0; 3]%nat).

Definition busy_state : State :=
  match play NUM_PHILOSOPHERS busy_schedule (init NUM_PHILOSOPHERS) with
  | Some (_, s) => s
  | None => init NUM_PHILOSOPHERS
  end.

Definition busy_trace : list Label :=
  match play NUM_PHILOSOPHERS busy_schedule (init NUM_PHILOSOPHERS) with
  | Some (tr, _) => tr
  | None => []
  end.

(** Philosophers 1 and 2 of the program, once philosopher 1 is eating. *)
Definition dinner_schedule : list Actor :=
  [Main; Main; Main; Main; Main] ++ repeat (Philosopher 1) 9.

Definition dinner_trace : list Label :=
  match play NUM_PHILOSOPHERS dinner_schedule (init NUM_PHILOSOPHERS) with
  | Some (tr, _) => tr
  | None => []
  end.

Definition dinner_state : State :=
  match play NUM_PHILOSOPHERS dinner_schedule (init NUM_PHILOSOPHERS) with
  | Some (_, s) => s
  | None => init NUM_PHILOSOPHERS
  end.

(** Philosopher 1 of the program has eaten and put down its left chopstick
    1; philosopher 0, which was waiting for chopstick 1, has picked it up;
    philosopher 1 is about to put down its right chopstick 2. *)
Definition handover_schedule : list Actor :=
  [Main; Main; Main; Main; Main] ++
  repeat (Philosopher 1) 11 ++ repeat (Philosopher 0) 4 ++
  [Philosopher 1; Philosopher 0].

Definition handover_trace : list Label :=
  match play NUM_PHILOSOPHERS handover_schedule (init NUM_PHILOSOPHERS) with
  | Some (tr, _) => tr
  | None => []
  end.

Definition handover_state : State :=
  match play NUM_PHILOSOPHERS handover_schedule (init NUM_PHILOSOPHERS) with
  | Some (_, s) => s
  | None => init NUM_PHILOSOPHERS
  end.

(** ** The steps and the messages of one philosopher *)

(** The statements philosopher [id] has executed in a run, oldest first. *)
Definition thread_trace (id : Z) (tr : list Label) : list Instr :=
  flat_map (fun l => match l with
                     | Did id' ins => if (id' =? id)%Z then [ins] else []
                     | Spawned _ => []
                     end) tr.

(** The chopsticks named in its pick-up messages. *)
Definition picked_of (ins : Instr) : list Z :=
  match ins with
  | Log (PickedUp _ c) => [c]
  | _ => []
  end.

Definition acquired_of (ins : Instr) : list Z :=
  match ins with
  | Acquire c => [c]
  | _ => []
  end.

Definition picked_by (id : Z) (tr : list Label) : list Z :=
  flat_map picked_of (thread_trace id tr).

(** Its announcements "is thinking" and "is eating". *)
Definition activity_of (ins : Instr) : list Msg :=
  match ins with
  | Log IsThinking => [IsThinking]
  | Log IsEating => [IsEating]
  | _ => []
  end.

Definition activities (id : Z) (tr : list Label) : list Msg :=
  flat_map activity_of (thread_trace id tr).

Fixpoint turns {A} (n : nat) (a b : A) : list A :=
  match n with
  | O => []
  | S n' => a :: turns n' b a
  end.

(** The chopstick on a side of philosopher [id]. *)
Definition side_chopstick (N id : Z) (side : Side) : Z :=
  match side with
  | Left => leftChopstick id
  | Right => rightChopstick N id
  end.

(** The chopsticks of a list of philosophers, left and right of each. *)
Definition chopsticks_of (N : Z) (ks : list nat) : list Z :=
  flat_map (fun k => [leftChopstick (Z.of_nat k); rightChopstick N (Z.of_nat k)]) ks.

(** Philosophers 1 and 3 of the program eat at the same time. *)
Definition feast_schedule : list Actor :=
  [Main; Main; Main; Main; Main] ++
  repeat (Philosopher 1) 8 ++ repeat (Philosopher 3) 8.

Definition feast_trace : list Label :=
  match play NUM_PHILOSOPHERS feast_schedule (init NUM_PHILOSOPHERS) with
  | Some (tr, _) => tr
  | None => []
  end.

Definition feast_state : State :=
  match play NUM_PHILOSOPHERS feast_schedule (init NUM_PHILOSOPHERS) with
  | Some (_, s) => s
  | None => init NUM_PHILOSOPHERS
  end.

(** The semaphore operations of a sequence of statements, one after the
    other. *)
Fixpoint exec_all (instrs : list Instr) (sems : list Z) : SemResult :=
  match instrs with
  | [] => SemOk sems
  | ins :: rest =>
      match exec ins sems with
      | SemOk sems' => exec_all rest sems'
      | other => other
      end
  end.

(** The stored program counter for a position up to the end of the body. *)
Definition wrap (pc : nat) : nat := if (pc <? 14)%nat then pc else 0%nat.

(** The five threads of the program are started and none has moved. *)
Definition seated_schedule : list Actor := [Main; Main; Main; Main; Main].

Definition seated_trace : list Label :=
  match play NUM_PHILOSOPHERS seated_schedule (init NUM_PHILOSOPHERS) with
  | Some (tr, _) => tr
  | None => []
  end.

Definition seated_state : State :=
  match play NUM_PHILOSOPHERS seated_schedule (init NUM_PHILOSOPHERS) with
  | Some (_, s) => s
  | None => init NUM_PHILOSOPHERS
  end.

(** Philosopher [k] is blocked in [acquire] on a chopstick that philosopher
    [k'] holds. *)
Definition waits_for (N : Z) (s : State) (k k' : nat) : Prop :=
  exists t t' c,
    philosophers s !! k = Some t /\ fetch N t = Some (Acquire c) /\
    step N (Philosopher k) s = Blocked /\
    philosophers s !! k' = Some t' /\ holding N t' c = true.

(** Philosopher 3 of the program eats; 4 waits for 3, 0 waits for 4 and 1
    waits for 0. *)
Definition queue_schedule : list Actor :=
  [Main; Main; Main; Main; Main] ++
  repeat (Philosopher 3) 8 ++ repeat (Philosopher 4) 6 ++
  repeat (Philosopher 0) 6 ++ repeat (Philosopher 1) 4.

Definition queue_trace : list Label :=
  match play NUM_PHILOSOPHERS queue_schedule (init NUM_PHILOSOPHERS) with
  | Some (tr, _) => tr
  | None => []
  end.

Definition queue_state : State :=
  match play NUM_PHILOSOPHERS queue_schedule (init NUM_PHILOSOPHERS) with
  | Some (_, s) => s
  | None => init NUM_PHILOSOPHERS
  end.

(** How far a round has got, for the two kinds of announcements and for the
    acquisitions. *)
Definition activity_count (pc : nat) : nat :=
  if (pc =? 0)%nat then 0%nat else if (pc <=? 8)%nat then 1%nat else 2%nat.

Definition acquired_count (pc : nat) : nat :=
  if (pc <=? 4)%nat then 0%nat else if (pc <=? 6)%nat then 1%nat else 2%nat.

Definition picked_count (pc : nat) : nat :=
  if (pc <=? 5)%nat then 0%nat else if (pc <=? 7)%nat then 1%nat else 2%nat.

(** ** The code of one philosopher *)

Section Code.

Variable N : Z.

Lemma philosopher_length id : length (philosopher N id) = 14%nat.
Proof. unfold philosopher. destruct (Z.rem id 2 =? 0)%Z; reflexivity. Qed.

Lemma rightChopstick_ring id :
  (0 <= id < N)%Z ->
  rightChopstick N id = (if (id + 1 =? N)%Z then 0 else id + 1)%Z.
Proof.
  intros H. unfold rightChopstick.
  destruct (Z.eqb_spec (id + 1) N) as [->|Hne].
  - apply Z.rem_same. lia.
  - apply Z.rem_small. lia.
Qed.

Lemma rightChopstick_bounds id :
  (0 <= id < N)%Z -> (0 <= rightChopstick N id < N)%Z.
Proof.
  intros H. rewrite rightChopstick_ring by assumption.
  destruct (Z.eqb_spec (id + 1) N); lia.
Qed.

Lemma left_right_distinct id :
  (2 <= N)%Z -> (0 <= id < N)%Z -> leftChopstick id <> rightChopstick N id.
Proof.
  intros HN H. rewrite rightChopstick_ring by assumption. unfold leftChopstick.
  destruct (Z.eqb_spec (id + 1) N); lia.
Qed.

(** Executing one more statement updates [holding] by that statement, and
    a new round starts with empty hands. *)
Lemma holding_advance t ins c :
  fetch N t = Some ins ->
  (S (th_pc t) < 14)%nat ->
  holding N (advance N t) c = held_upd c (holding N t c) ins.
Proof.
  intros Hf Hpc. unfold holding, advance, held_in, fetch in *.
  cbv zeta. cbn [th_id th_pc]. rewrite philosopher_length.
  destruct (Nat.ltb_spec (S (th_pc t)) 14) as [_|?]; [|lia].
  rewrite (take_S_r _ _ ins) by exact Hf.
  rewrite fold_left_app. reflexivity.
Qed.

Lemma holding_restart t c :
  (13 <= th_pc t)%nat -> holding N (advance N t) c = false.
Proof.
  intros Hpc. unfold holding, advance.
  cbv zeta. cbn [th_id th_pc]. rewrite philosopher_length.
  destruct (Nat.ltb_spec (S (th_pc t)) 14) as [?|_]; [lia|]. reflexivity.
Qed.

Lemma holding_start id c : holding N (mkThread id 0) c = false.
Proof. reflexivity. Qed.

(** Where in the loop a thread holds which chopstick. *)
Lemma holding_even id pc c :
  Z.rem id 2 = 0%Z ->
  leftChopstick id <> rightChopstick N id ->
  holding N (mkThread id pc) c =
    ((rightChopstick N id =? c)%Z && (5 <=? pc)%nat && (pc <=? 12)%nat)
    || ((leftChopstick id =? c)%Z && (7 <=? pc)%nat && (pc <=? 11)%nat).
Proof.
  intros Hpar Hne. unfold holding, philosopher, held_in. simpl th_id. simpl th_pc.
  rewrite Hpar. simpl (0 =? 0)%Z. cbv iota.
  do 14 (destruct pc as [|pc];
         [ simpl; destruct (Z.eqb_spec (rightChopstick N id) c),
                           (Z.eqb_spec (leftChopstick id) c);
             simpl; try reflexivity; congruence | ]).
  simpl. rewrite take_nil. simpl.
  destruct (Z.eqb_spec (rightChopstick N id) c),
           (Z.eqb_spec (leftChopstick id) c);
    simpl; rewrite ?andb_false_r; try reflexivity; congruence.
Qed.

Lemma holding_odd id pc c :
  Z.rem id 2 <> 0%Z ->
  leftChopstick id <> rightChopstick N id ->
  holding N (mkThread id pc) c =
    ((leftChopstick id =? c)%Z && (5 <=? pc)%nat && (pc <=? 11)%nat)
    || ((rightChopstick N id =? c)%Z && (7 <=? pc)%nat && (pc <=? 12)%nat).
Proof.
  intros Hpar Hne. unfold holding, philosopher, held_in. simpl th_id. simpl th_pc.
  destruct (Z.eqb_spec (Z.rem id 2) 0) as [?|_]; [contradiction|].
  do 14 (destruct pc as [|pc];
         [ simpl; destruct (Z.eqb_spec (rightChopstick N id) c),
                           (Z.eqb_spec (leftChopstick id) c);
             simpl; try reflexivity; congruence | ]).
  simpl. rewrite take_nil. simpl.
  destruct (Z.eqb_spec (rightChopstick N id) c),
           (Z.eqb_spec (leftChopstick id) c);
    simpl; rewrite ?andb_false_r; try reflexivity; congruence.
Qed.

(** The statements that touch a semaphore, by position. *)
Lemma fetch_acquire id pc c :
  fetch N (mkThread id pc) = Some (Acquire c) ->
  (pc = 4%nat /\ c = (if (Z.rem id 2 =? 0)%Z then rightChopstick N id else leftChopstick id))
  \/ (pc = 6%nat /\ c = (if (Z.rem id 2 =? 0)%Z then leftChopstick id else rightChopstick N id)).
Proof.
  unfold fetch, philosopher. cbn [th_id th_pc].
  destruct (Z.rem id 2 =? 0)%Z;
    do 14 (destruct pc as [|pc]; [simpl; intros [=]; subst; auto|]);
    simpl; intros [=].
Qed.

Lemma fetch_release id pc c :
  fetch N (mkThread id pc) = Some (Release c) ->
  (pc = 11%nat /\ c = leftChopstick id) \/ (pc = 12%nat /\ c = rightChopstick N id).
Proof.
  unfold fetch, philosopher. cbn [th_id th_pc].
  destruct (Z.rem id 2 =? 0)%Z;
    do 14 (destruct pc as [|pc]; [simpl; intros [=]; subst; auto|]);
    simpl; intros [=].
Qed.

Lemma fetch_bound t ins : fetch N t = Some ins -> (th_pc t < 14)%nat.
Proof.
  unfold fetch. intros H. apply lookup_lt_Some in H.
  rewrite philosopher_length in H. exact H.
Qed.

Lemma fetch_total t : (th_pc t < 14)%nat -> exists ins, fetch N t = Some ins.
Proof.
  intros H. unfold fetch. apply lookup_lt_is_Some_2.
  rewrite philosopher_length. exact H.
Qed.

Lemma fetch_last id ins : fetch N (mkThread id 13) = Some ins -> ins = Log PutDown.
Proof.
  unfold fetch, philosopher. cbn [th_id th_pc].
  destruct (Z.rem id 2 =? 0)%Z; simpl; congruence.
Qed.

(** A thread releases only what it holds, and holds nothing when it reaches
    the end of the loop body. *)
Lemma release_holding id pc c :
  leftChopstick id <> rightChopstick N id ->
  fetch N (mkThread id pc) = Some (Release c) ->
  holding N (mkThread id pc) c = true.
Proof.
  intros Hne Hf. apply fetch_release in Hf.
  destruct (Z.eqb_spec (Z.rem id 2) 0) as [Hp|Hp];
    [rewrite holding_even by assumption | rewrite holding_odd by assumption];
    destruct Hf as [[-> ->]|[-> ->]]; rewrite !Z.eqb_refl; simpl;
    rewrite ?orb_true_r; reflexivity.
Qed.

Lemma acquire_not_holding id pc c :
  leftChopstick id <> rightChopstick N id ->
  fetch N (mkThread id pc) = Some (Acquire c) ->
  holding N (mkThread id pc) c = false.
Proof.
  intros Hne Hf. apply fetch_acquire in Hf. revert Hf.
  destruct (Z.eqb_spec (Z.rem id 2) 0) as [Hp|Hp];
    [rewrite holding_even by assumption | rewrite holding_odd by assumption];
    intros [[-> ->]|[-> ->]]; simpl;
    destruct (Z.eqb_spec (rightChopstick N id) (leftChopstick id)),
             (Z.eqb_spec (leftChopstick id) (rightChopstick N id));
    simpl; rewrite ?andb_false_r; try reflexivity; congruence.
Qed.

Lemma holding_end id c :
  leftChopstick id <> rightChopstick N id ->
  holding N (mkThread id 13) c = false.
Proof.
  intros Hne.
  destruct (Z.eqb_spec (Z.rem id 2) 0) as [Hp|Hp];
    [rewrite holding_even by assumption | rewrite holding_odd by assumption];
    simpl; rewrite !andb_false_r; reflexivity.
Qed.

Lemma holding_chopstick t c :
  leftChopstick (th_id t) <> rightChopstick N (th_id t) ->
  holding N t c = true ->
  c = leftChopstick (th_id t) \/ c = rightChopstick N (th_id t).
Proof.
  destruct t as [id pc]. cbn [th_id]. intros Hne.
  destruct (Z.eqb_spec (Z.rem id 2) 0) as [Hp|Hp];
    [rewrite holding_even by assumption | rewrite holding_odd by assumption];
    destruct (Z.eqb_spec (rightChopstick N id) c),
             (Z.eqb_spec (leftChopstick id) c); auto; simpl; discriminate.
Qed.

End Code.

(** ** Counting holders *)

Section Counting.

Context (P : Thread -> Prop) `{HdecP : !forall x, Decision (P x)}.

Lemma count_insert (l : list Thread) k x y :
  l !! k = Some x ->
  (length (filter P (<[k := y]> l)) + (if decide (P x) then 1 else 0)
   = length (filter P l) + (if decide (P y) then 1 else 0))%nat.
Proof.
  revert k. induction l as [|a l IH]; intros k Hk; [discriminate|].
  destruct k as [|k]; simpl in Hk |- *.
  - injection Hk as ->. rewrite !filter_cons.
    destruct (decide (P x)), (decide (P y)); simpl; lia.
  - rewrite !filter_cons. specialize (IH k Hk).
    destruct (decide (P a)); simpl; lia.
Qed.

Lemma count_member (l : list Thread) k x :
  l !! k = Some x -> P x -> (1 <= length (filter P l))%nat.
Proof.
  intros Hk HP.
  assert (Hin : x ∈ filter P l).
  { apply list_elem_of_filter. split; [exact HP|]. apply list_elem_of_lookup. eauto. }
  destruct (filter P l); [inversion Hin | simpl; lia].
Qed.

Lemma count_two (l : list Thread) k1 k2 x1 x2 :
  k1 <> k2 -> l !! k1 = Some x1 -> l !! k2 = Some x2 -> P x1 -> P x2 ->
  (2 <= length (filter P l))%nat.
Proof.
  revert k1 k2. induction l as [|a l IH]; intros k1 k2 Hne H1 H2 P1 P2; [discriminate|].
  rewrite filter_cons.
  destruct k1 as [|k1], k2 as [|k2]; simpl in H1, H2; try congruence.
  - injection H1 as ->. rewrite decide_True by assumption. simpl.
    pose proof (count_member l k2 x2 H2 P2). lia.
  - injection H2 as ->. rewrite decide_True by assumption. simpl.
    pose proof (count_member l k1 x1 H1 P1). lia.
  - assert (k1 <> k2) by congruence.
    pose proof (IH k1 k2 ltac:(assumption) H1 H2 P1 P2).
    destruct (decide (P a)); simpl; lia.
Qed.

Lemma count_witness (l : list Thread) :
  (1 <= length (filter P l))%nat -> exists k x, l !! k = Some x /\ P x.
Proof.
  intros Hlen. destruct (filter P l) as [|x r] eqn:E; [simpl in Hlen; lia|].
  assert (Hin : x ∈ filter P l) by (rewrite E; left).
  apply list_elem_of_filter in Hin as [HP Hin].
  apply list_elem_of_lookup in Hin as [k Hk]. eauto.
Qed.

End Counting.

(** ** The invariant is kept *)

Section Invariant.

Variable N : Z.

Lemma sem_at_Some sems c v :
  sem_at sems c = Some v -> (0 <= c)%Z /\ sems !! Z.to_nat c = Some v.
Proof.
  unfold sem_at. destruct (Z.ltb_spec c 0); [discriminate|]. auto.
Qed.

Lemma sem_at_range s c v :
  wf N s -> sem_at (chopsticks s) c = Some v -> (0 <= c < N)%Z.
Proof.
  intros W H. apply sem_at_Some in H as [H0 H].
  apply lookup_lt_Some in H. rewrite (wf_sems _ _ W) in H. lia.
Qed.

Lemma sem_at_set_eq sems c v w :
  sem_at sems c = Some v -> sem_at (sem_set sems c w) c = Some w.
Proof.
  intros H. apply sem_at_Some in H as [H0 H]. unfold sem_at, sem_set.
  destruct (Z.ltb_spec c 0); [lia|].
  apply list_lookup_insert_eq. eapply lookup_lt_Some; eauto.
Qed.

Lemma sem_at_set_ne sems c c' w :
  (0 <= c)%Z -> (0 <= c')%Z -> c <> c' ->
  sem_at (sem_set sems c w) c' = sem_at sems c'.
Proof.
  intros H0 H0' Hne. unfold sem_at, sem_set.
  destruct (Z.ltb_spec c' 0); [lia|].
  apply list_lookup_insert_ne. lia.
Qed.

Lemma holders_update s sems i k t t' c :
  philosophers s !! k = Some t ->
  (holders N (mkState sems (<[k := t']> (philosophers s)) i) c
   + Nat.b2n (holding N t c)
   = holders N s c + Nat.b2n (holding N t' c))%nat.
Proof.
  intros Hk. unfold holders. cbn [philosophers].
  pose proof (count_insert (fun x => holding N x c = true) (philosophers s) k t t' Hk) as H.
  cbv beta in H.
  destruct (holding N t c), (holding N t' c);
    rewrite ?decide_True in H by reflexivity;
    rewrite ?decide_False in H by discriminate; simpl; exact H.
Qed.

Lemma holders_member s k t c :
  philosophers s !! k = Some t -> holding N t c = true -> (1 <= holders N s c)%nat.
Proof. intros Hk Hh. unfold holders. eapply count_member; eauto. Qed.

Lemma thread_range s k t :
  wf N s -> philosophers s !! k = Some t -> (0 <= th_id t < N)%Z.
Proof.
  intros W Hk. destruct (wf_thread _ _ W k t Hk) as [-> _].
  apply lookup_lt_Some in Hk.
  pose proof (wf_main _ _ W). pose proof (wf_started _ _ W). lia.
Qed.

Lemma thread_distinct s k t :
  (2 <= N)%Z -> wf N s -> philosophers s !! k = Some t ->
  leftChopstick (th_id t) <> rightChopstick N (th_id t).
Proof.
  intros HN W Hk. apply left_right_distinct; [exact HN|]. eapply thread_range; eauto.
Qed.

Lemma wf_init : (0 <= N)%Z -> wf N (init N).
Proof.
  intros HN. split; simpl.
  - apply length_replicate.
  - reflexivity.
  - exact HN.
  - intros k t H. discriminate.
  - intros c Hc. exists 1%Z. split; [|split; [lia|reflexivity]].
    unfold sem_at. destruct (Z.ltb_spec c 0); [lia|].
    apply lookup_replicate_2. lia.
Qed.

Lemma holding_step t ins c :
  leftChopstick (th_id t) <> rightChopstick N (th_id t) ->
  fetch N t = Some ins ->
  holding N (advance N t) c = held_upd c (holding N t c) ins.
Proof.
  intros Hne Hf. pose proof (fetch_bound _ _ _ Hf) as Hpc.
  destruct (Nat.eq_dec (th_pc t) 13) as [E|E].
  - rewrite holding_restart by lia.
    destruct t as [id pc]. cbn [th_id th_pc] in *. subst pc.
    apply fetch_last in Hf as ->. simpl. symmetry. apply holding_end. exact Hne.
  - apply holding_advance; [exact Hf | lia].
Qed.

Lemma advance_bound t : (th_pc (advance N t) < 14)%nat.
Proof.
  unfold advance. cbv zeta. cbn [th_pc]. rewrite philosopher_length.
  destruct (Nat.ltb_spec (S (th_pc t)) 14); lia.
Qed.

Lemma wf_spawn s :
  wf N s -> (main_i s < N)%Z ->
  wf N (mkState (chopsticks s) (philosophers s ++ [mkThread (main_i s) 0]) (main_i s + 1)).
Proof.
  intros W Hlt. split; cbn [chopsticks philosophers main_i].
  - apply (wf_sems _ _ W).
  - rewrite length_app. simpl. rewrite (wf_main _ _ W). lia.
  - lia.
  - intros k t Hk. apply lookup_snoc_Some in Hk as [[_ Hk]|[-> <-]].
    + apply (wf_thread _ _ W k t Hk).
    + cbn [th_id th_pc]. split; [apply (wf_main _ _ W) | lia].
  - intros c Hc. destruct (wf_count _ _ W c Hc) as (v & Hv & Hv0 & Hsum).
    exists v. split; [exact Hv|]. split; [exact Hv0|].
    unfold holders in *. cbn [philosophers]. rewrite filter_app, length_app.
    rewrite filter_cons_False, filter_nil by (rewrite holding_start; discriminate).
    simpl. lia.
Qed.

Lemma wf_exec s k t ins sems' :
  (2 <= N)%Z -> wf N s ->
  philosophers s !! k = Some t -> fetch N t = Some ins ->
  exec ins (chopsticks s) = SemOk sems' ->
  wf N (mkState sems' (<[k := advance N t]> (philosophers s)) (main_i s)).
Proof.
  intros HN W Hk Hf Hx.
  pose proof (thread_distinct _ _ _ HN W Hk) as Hne.
  assert (Hlen : length sems' = length (chopsticks s)).
  { destruct ins as [m|ms|c0|c0]; simpl in Hx; try (injection Hx as <-; reflexivity).
    - unfold acquire in Hx. destruct (sem_at (chopsticks s) c0); [|discriminate].
      destruct (0 <? z)%Z; [|discriminate]. injection Hx as <-. apply length_insert.
    - unfold release in Hx. destruct (sem_at (chopsticks s) c0); [|discriminate].
      destruct (z <? 1)%Z; [|discriminate]. injection Hx as <-. apply length_insert. }
  split; cbn [chopsticks philosophers main_i].
  - rewrite Hlen. apply (wf_sems _ _ W).
  - rewrite length_insert. apply (wf_main _ _ W).
  - apply (wf_started _ _ W).
  - intros k' t' Hk'. destruct (Nat.eq_dec k k') as [<-|Hkk].
    + rewrite list_lookup_insert_eq in Hk' by (eapply lookup_lt_Some; eauto).
      injection Hk' as <-. split; [|apply advance_bound].
      unfold advance. cbn [th_id]. apply (wf_thread _ _ W k t Hk).
    + rewrite list_lookup_insert_ne in Hk' by exact Hkk.
      apply (wf_thread _ _ W k' t' Hk').
  - intros c Hc. destruct (wf_count _ _ W c Hc) as (v & Hv & Hv0 & Hsum).
    pose proof (holders_update s sems' (main_i s) k t (advance N t) c Hk) as Hcnt.
    rewrite (holding_step t ins c Hne Hf) in Hcnt.
    destruct ins as [m|ms|c0|c0]; simpl in Hx, Hcnt.
    + injection Hx as <-. exists v. repeat split; try assumption. lia.
    + injection Hx as <-. exists v. repeat split; try assumption. lia.
    + unfold acquire in Hx. destruct (sem_at (chopsticks s) c0) as [v0|] eqn:Hv0'; [|discriminate].
      destruct (Z.ltb_spec 0 v0); [|discriminate]. injection Hx as <-.
      pose proof (sem_at_range _ _ _ W Hv0') as Hc0.
      destruct (Z.eqb_spec c0 c) as [->|Hcc].
      * rewrite Hv0' in Hv. injection Hv as ->.
        exists (v - 1)%Z. split; [eapply sem_at_set_eq; eauto|].
        destruct (holding N t c) eqn:Hh.
        -- pose proof (holders_member _ _ _ _ Hk Hh). lia.
        -- simpl in Hcnt. lia.
      * exists v. split; [rewrite sem_at_set_ne by lia; exact Hv|].
        split; [exact Hv0|]. lia.
    + unfold release in Hx. destruct (sem_at (chopsticks s) c0) as [v0|] eqn:Hv0'; [|discriminate].
      destruct (Z.ltb_spec v0 1); [|discriminate]. injection Hx as <-.
      pose proof (sem_at_range _ _ _ W Hv0') as Hc0.
      destruct (Z.eqb_spec c0 c) as [->|Hcc].
      * rewrite Hv0' in Hv. injection Hv as ->.
        exists (v + 1)%Z. split; [eapply sem_at_set_eq; eauto|].
        assert (Hh : holding N t c = true).
        { destruct t as [id pc]. apply release_holding; assumption. }
        rewrite Hh in Hcnt. simpl in Hcnt.
        pose proof (holders_member _ _ _ _ Hk Hh). lia.
      * exists v. split; [rewrite sem_at_set_ne by lia; exact Hv|].
        split; [exact Hv0|]. lia.
Qed.

Lemma wf_step a s l s' :
  (2 <= N)%Z -> wf N s -> step N a s = Next l s' -> wf N s'.
Proof.
  intros HN W Hs. destruct a as [|k]; simpl in Hs.
  - unfold step_main in Hs. destruct (Z.ltb_spec (main_i s) N).
    + injection Hs as _ <-. apply wf_spawn; assumption.
    + destruct (philosophers s); discriminate.
  - unfold step_philosopher in Hs.
    destruct (philosophers s !! k) as [t|] eqn:Hk; [|discriminate].
    destruct (fetch N t) as [ins|] eqn:Hf; [|discriminate].
    destruct (exec ins (chopsticks s)) as [sems'| |f] eqn:Hx; try discriminate.
    injection Hs as _ <-. eapply wf_exec; eauto.
Qed.

Lemma run_wf tr s : (2 <= N)%Z -> run N tr s -> wf N s.
Proof.
  intros HN R. induction R as [|tr s a l s' R IH Hs].
  - apply wf_init. lia.
  - eapply wf_step; eauto.
Qed.

(** ** What a step of a started thread can be *)

Lemma holding_cases t c :
  leftChopstick (th_id t) <> rightChopstick N (th_id t) ->
  holding N t c = true ->
  (Z.rem (th_id t) 2 = 0%Z /\
     ((c = rightChopstick N (th_id t) /\ 5 <= th_pc t <= 12)
      \/ (c = leftChopstick (th_id t) /\ 7 <= th_pc t <= 11)))
  \/ (Z.rem (th_id t) 2 <> 0%Z /\
     ((c = leftChopstick (th_id t) /\ 5 <= th_pc t <= 11)
      \/ (c = rightChopstick N (th_id t) /\ 7 <= th_pc t <= 12))).
Proof.
  destruct t as [id pc]. cbn [th_id th_pc]. intros Hne.
  destruct (Z.eqb_spec (Z.rem id 2) 0) as [Hp|Hp];
    [rewrite holding_even by assumption | rewrite holding_odd by assumption];
    intros H; [left|right]; (split; [exact Hp|]);
    apply orb_true_iff in H as [H|H];
    apply andb_true_iff in H as [H H2]; apply andb_true_iff in H as [H H1];
    apply Z.eqb_eq in H; apply Nat.leb_le in H1; apply Nat.leb_le in H2;
    subst c; auto.
Qed.

(** The semaphore operation of a started thread never violates a
    precondition: the index is inside the array and a release finds the
    counter at 0. *)
Lemma exec_defined s k t ins f :
  (2 <= N)%Z -> wf N s ->
  philosophers s !! k = Some t -> fetch N t = Some ins ->
  exec ins (chopsticks s) <> SemUB f.
Proof.
  intros HN W Hk Hf.
  pose proof (thread_distinct _ _ _ HN W Hk) as Hne.
  pose proof (thread_range _ _ _ W Hk) as Hid.
  pose proof (rightChopstick_bounds N _ Hid) as HR.
  destruct t as [id pc]. cbn [th_id] in *.
  destruct ins as [m|ms|c0|c0]; simpl; try discriminate.
  - assert (Hc0 : (0 <= c0 < N)%Z).
    { apply fetch_acquire in Hf. unfold leftChopstick in *.
      destruct (Z.rem id 2 =? 0)%Z, Hf as [[_ ->]|[_ ->]]; lia. }
    destruct (wf_count _ _ W c0 Hc0) as (v & Hv & _). unfold acquire. rewrite Hv.
    destruct (0 <? v)%Z; discriminate.
  - assert (Hh : holding N (mkThread id pc) c0 = true) by (apply release_holding; assumption).
    assert (Hc0 : (0 <= c0 < N)%Z).
    { apply fetch_release in Hf. unfold leftChopstick in *.
      destruct Hf as [[_ ->]|[_ ->]]; lia. }
    destruct (wf_count _ _ W c0 Hc0) as (v & Hv & Hv0 & Hsum). unfold release. rewrite Hv.
    pose proof (holders_member _ _ _ _ Hk Hh).
    destruct (Z.ltb_spec v 1); [discriminate|lia].
Qed.

Lemma step_cases s k t :
  (2 <= N)%Z -> wf N s -> philosophers s !! k = Some t ->
  (exists l s', step N (Philosopher k) s = Next l s')
  \/ (step N (Philosopher k) s = Blocked /\
      exists c k' t', fetch N t = Some (Acquire c) /\ k' <> k /\
                      philosophers s !! k' = Some t' /\ holding N t' c = true).
Proof.
  intros HN W Hk. simpl. unfold step_philosopher. rewrite Hk.
  destruct (fetch_total N t) as [ins Hf]; [apply (wf_thread _ _ W k t Hk)|].
  rewrite Hf.
  pose proof (fun f => exec_defined s k t ins f HN W Hk Hf) as Hdef.
  destruct (exec ins (chopsticks s)) as [sems'| |f] eqn:Hx.
  - left. eauto.
  - right. split; [reflexivity|].
    destruct ins as [m|ms|c0|c0]; simpl in Hx; try discriminate.
    + unfold acquire in Hx.
      destruct (sem_at (chopsticks s) c0) as [v|] eqn:Hv; [|discriminate].
      destruct (Z.ltb_spec 0 v); [discriminate|].
      pose proof (sem_at_range _ _ _ W Hv) as Hc0.
      destruct (wf_count _ _ W c0 Hc0) as (v' & Hv' & Hv0 & Hsum).
      rewrite Hv in Hv'. injection Hv' as <-.
      destruct (count_witness (fun x => holding N x c0 = true) (philosophers s))
        as (k' & t' & Hk' & Hh'); [unfold holders in Hsum; lia|].
      exists c0, k', t'. repeat split; try assumption.
      intros ->. rewrite Hk in Hk'. injection Hk' as <-.
      destruct t as [id pc].
      rewrite acquire_not_holding in Hh'; [discriminate| |exact Hf].
      apply (thread_distinct _ _ _ HN W Hk).
    + unfold release in Hx. destruct (sem_at (chopsticks s) c0); [|discriminate].
      destruct (z <? 1)%Z; discriminate.
  - exfalso. eapply Hdef; reflexivity.
Qed.

(** A thread that is not at an [acquire] can always move. *)
Lemma step_free s k t :
  (2 <= N)%Z -> wf N s -> philosophers s !! k = Some t ->
  th_pc t <> 4 -> th_pc t <> 6 ->
  exists l s', step N (Philosopher k) s = Next l s'.
Proof.
  intros HN W Hk H4 H6.
  destruct (step_cases s k t HN W Hk) as [H|[_ (c & k' & t' & Hf & _)]]; [exact H|].
  destruct t as [id pc]. apply fetch_acquire in Hf. cbn [th_pc] in *. lia.
Qed.

(** ** No deadlock *)

(** Who can hold chopstick [c]: philosopher [c] as its left one, or the
    philosopher before [c] on the ring as its right one. *)
Lemma holder_position s k t c :
  (2 <= N)%Z -> wf N s -> philosophers s !! k = Some t -> holding N t c = true ->
  th_id t = Z.of_nat k /\ (0 <= Z.of_nat k < N)%Z /\
  ((Z.rem (Z.of_nat k) 2 = 0%Z /\
     ((c = (if (Z.of_nat k + 1 =? N)%Z then 0 else Z.of_nat k + 1)%Z /\ 5 <= th_pc t <= 12)
      \/ (c = Z.of_nat k /\ 7 <= th_pc t <= 11)))
   \/ (Z.rem (Z.of_nat k) 2 <> 0%Z /\
     ((c = Z.of_nat k /\ 5 <= th_pc t <= 11)
      \/ (c = (if (Z.of_nat k + 1 =? N)%Z then 0 else Z.of_nat k + 1)%Z /\ 7 <= th_pc t <= 12)))).
Proof.
  intros HN W Hk Hh.
  pose proof (thread_distinct _ _ _ HN W Hk) as Hne.
  pose proof (thread_range _ _ _ W Hk) as Hid.
  destruct (wf_thread _ _ W k t Hk) as [E _].
  apply holding_cases in Hh; [|exact Hne].
  rewrite rightChopstick_ring in Hh by exact Hid.
  unfold leftChopstick in Hh. rewrite E in *. auto.
Qed.

Lemma acquire_position s k t c :
  (2 <= N)%Z -> wf N s -> philosophers s !! k = Some t -> fetch N t = Some (Acquire c) ->
  (th_pc t = 4 /\ Z.rem (Z.of_nat k) 2 = 0%Z /\
     c = (if (Z.of_nat k + 1 =? N)%Z then 0 else Z.of_nat k + 1)%Z)
  \/ (th_pc t = 6 /\ Z.rem (Z.of_nat k) 2 = 0%Z /\ c = Z.of_nat k)
  \/ (th_pc t = 4 /\ Z.rem (Z.of_nat k) 2 <> 0%Z /\ c = Z.of_nat k)
  \/ (th_pc t = 6 /\ Z.rem (Z.of_nat k) 2 <> 0%Z /\
     c = (if (Z.of_nat k + 1 =? N)%Z then 0 else Z.of_nat k + 1)%Z).
Proof.
  intros HN W Hk Hf.
  pose proof (thread_range _ _ _ W Hk) as Hid.
  destruct (wf_thread _ _ W k t Hk) as [E _].
  destruct t as [id pc]. cbn [th_id th_pc] in *. subst id.
  apply fetch_acquire in Hf. rewrite rightChopstick_ring in Hf by exact Hid.
  unfold leftChopstick in Hf.
  destruct (Z.eqb_spec (Z.rem (Z.of_nat k) 2) 0); destruct Hf as [[-> ->]|[-> ->]]; auto 6.
Qed.

(** As soon as one philosopher is started, some started philosopher can
    take a step. *)
Lemma some_philosopher_moves s :
  (2 <= N)%Z -> wf N s -> philosophers s <> [] ->
  exists k l s', step N (Philosopher k) s = Next l s'.
Proof.
  intros HN W Hne.
  destruct (philosophers s) as [|t0 rest] eqn:Hps; [contradiction|]. clear Hne.
  assert (Hk0 : philosophers s !! 0 = Some t0) by (rewrite Hps; reflexivity).
  destruct (step_cases s 0 t0 HN W Hk0) as [H|[_ (c & k1 & t1 & Hf0 & Hk10 & Hk1 & Hh1)]];
    [eauto|].
  pose proof (acquire_position s 0 t0 c HN W Hk0 Hf0) as Hpos0.
  pose proof (holder_position s k1 t1 c HN W Hk1 Hh1) as (_ & Hr1 & Hpos1).
  destruct (step_cases s k1 t1 HN W Hk1) as [H|[_ (c2 & k2 & t2 & Hf1 & Hk21 & Hk2 & Hh2)]];
    [eauto|].
  pose proof (acquire_position s k1 t1 c2 HN W Hk1 Hf1) as Hacq1.
  pose proof (holder_position s k2 t2 c2 HN W Hk2 Hh2) as (_ & Hr2 & Hpos2).
  (* k2 is never at an acquire: it is not philosopher 0, which holds at
     most its first chopstick, and it holds its second chopstick *)
  simpl Z.of_nat in *.
  rewrite !Z.rem_mod_nonneg in * by lia.
  assert (Hfree : th_pc t2 <> 4 /\ th_pc t2 <> 6).
  { destruct (Z.eqb_spec (Z.of_nat k1 + 1) N), (Z.eqb_spec (Z.of_nat k2 + 1) N),
             (Z.eqb_spec (0 + 1) N);
      Z.div_mod_to_equations; lia. }
  exists k2. apply (step_free s k2 t2 HN W Hk2); apply Hfree.
Qed.

(** ** The history of a run and the program counters agree *)

Lemma holds_snoc tr l id c :
  holds (tr ++ [l]) id c = holds_upd id c (holds tr id c) l.
Proof. unfold holds. rewrite fold_left_app. reflexivity. Qed.

Lemma holds_upd_self id c h ins :
  holds_upd id c h (Did id ins) = held_upd c h ins.
Proof.
  destruct ins; simpl; try reflexivity; rewrite Z.eqb_refl; reflexivity.
Qed.

Lemma holds_upd_other id id' c h ins :
  id' <> id -> holds_upd id c h (Did id' ins) = h.
Proof.
  intros Hne. destruct ins; simpl; try reflexivity;
    destruct (Z.eqb_spec id' id); try contradiction; reflexivity.
Qed.

Lemma run_holds tr s :
  (2 <= N)%Z -> run N tr s ->
  forall id c, holds tr id c = holding_id N s id c.
Proof.
  intros HN R. induction R as [|tr s a l s' R IH Hs]; intros id c.
  - unfold holding_id, thread_of. simpl. destruct (id <? 0)%Z; reflexivity.
  - pose proof (run_wf _ _ HN R) as W.
    rewrite holds_snoc, IH. clear IH. destruct a as [|k]; simpl in Hs.
    + unfold step_main in Hs. destruct (Z.ltb_spec (main_i s) N).
      * injection Hs as <- <-. simpl. unfold holding_id, thread_of. cbn [philosophers].
        destruct (Z.ltb_spec id 0); [reflexivity|].
        destruct (philosophers s !! Z.to_nat id) as [t|] eqn:Hk.
        -- rewrite (lookup_app_l_Some _ _ _ _ Hk). reflexivity.
        -- apply lookup_ge_None in Hk.
           destruct (Nat.eq_dec (Z.to_nat id) (length (philosophers s))) as [E|E].
           ++ rewrite E, list_lookup_middle by reflexivity. reflexivity.
           ++ rewrite lookup_ge_None_2; [reflexivity|]. rewrite length_app. simpl. lia.
      * destruct (philosophers s); discriminate.
    + unfold step_philosopher in Hs.
      destruct (philosophers s !! k) as [t|] eqn:Hk; [|discriminate].
      destruct (fetch N t) as [ins|] eqn:Hf; [|discriminate].
      destruct (exec ins (chopsticks s)) as [sems'| |f] eqn:Hx; try discriminate.
      injection Hs as <- <-.
      destruct (wf_thread _ _ W k t Hk) as [E _].
      unfold holding_id, thread_of. cbn [philosophers].
      destruct (Z.eqb_spec (th_id t) id) as [<-|Hne].
      * rewrite holds_upd_self.
        destruct (Z.ltb_spec (th_id t) 0); [lia|].
        rewrite E, Nat2Z.id, Hk.
        rewrite list_lookup_insert_eq by (eapply lookup_lt_Some; eauto).
        symmetry. apply holding_step; [|exact Hf].
        apply (thread_distinct _ _ _ HN W Hk).
      * rewrite holds_upd_other by exact Hne.
        destruct (Z.ltb_spec id 0); [reflexivity|].
        rewrite list_lookup_insert_ne by lia. reflexivity.
Qed.

(** ** Mutual exclusion on the state *)

Lemma holders_le_1 s c :
  wf N s -> (0 <= c < N)%Z -> (holders N s c <= 1)%nat.
Proof.
  intros W Hc. destruct (wf_count _ _ W c Hc) as (v & _ & Hv0 & Hsum). lia.
Qed.

Lemma holding_in_range s k t c :
  (2 <= N)%Z -> wf N s -> philosophers s !! k = Some t -> holding N t c = true ->
  (0 <= c < N)%Z.
Proof.
  intros HN W Hk Hh.
  pose proof (thread_range _ _ _ W Hk) as Hid.
  pose proof (rightChopstick_bounds N _ Hid).
  apply holding_chopstick in Hh as [->| ->]; [unfold leftChopstick; lia|assumption|].
  apply (thread_distinct _ _ _ HN W Hk).
Qed.

Lemma one_holder s k1 k2 t1 t2 c :
  (2 <= N)%Z -> wf N s ->
  philosophers s !! k1 = Some t1 -> philosophers s !! k2 = Some t2 ->
  holding N t1 c = true -> holding N t2 c = true -> k1 = k2.
Proof.
  intros HN W H1 H2 Hh1 Hh2.
  destruct (Nat.eq_dec k1 k2) as [E|E]; [exact E|exfalso].
  pose proof (holding_in_range _ _ _ _ HN W H1 Hh1) as Hc.
  pose proof (holders_le_1 s c W Hc) as Hle.
  pose proof (count_two (fun x => holding N x c = true) (philosophers s)
                        k1 k2 t1 t2 E H1 H2 Hh1 Hh2) as Hge.
  unfold holders in Hle. lia.
Qed.

End Invariant.

(** ** Schedules *)

Lemma play_run N sched : forall tr s tr' s',
  run N tr s -> play N sched s = Some (tr', s') -> run N (tr ++ tr') s'.
Proof.
  induction sched as [|a rest IH]; intros tr s tr' s' R Hp; simpl in Hp.
  - injection Hp as <- <-. rewrite app_nil_r. exact R.
  - destruct (step N a s) as [l s1| | |] eqn:Hs; try discriminate.
    destruct (play N rest s1) as [[tr1 s2]|] eqn:Hr; [|discriminate].
    injection Hp as <- <-.
    replace (tr ++ l :: tr1) with ((tr ++ [l]) ++ tr1) by (rewrite <- app_assoc; reflexivity).
    eapply IH; [|exact Hr]. eapply run_step; eauto.
Qed.

Lemma play_init N sched tr s :
  play N sched (init N) = Some (tr, s) -> run N tr s.
Proof. intros Hp. apply (play_run N sched [] (init N) tr s (run_init N) Hp). Qed.

(** ** Deadlock freedom *)

(** C1. Under the even/odd pick-up order, in every reachable state of the
    program with [N >= 2] philosophers it is not the case that every
    philosopher is blocked in [acquire]: as soon as one philosopher is
    started, some started philosopher can take a step, and before that
    [main] can; so some actor can always move. *)
Theorem deadlock_freedom N s :
  (2 <= N)%Z -> reachable N s ->
  ~ (forall k, (Z.of_nat k < N)%Z -> blocked N s k)
  /\ (philosophers s <> [] -> exists k l s', step N (Philosopher k) s = Next l s')
  /\ (exists a l s', step N a s = Next l s').
Proof.
  intros HN [tr R]. pose proof (run_wf N tr s HN R) as W.
  assert (Hmove : philosophers s <> [] ->
                  exists k l s', step N (Philosopher k) s = Next l s')
    by (apply some_philosopher_moves; assumption).
  split; [|split; [exact Hmove|]].
  - intros Hall.
    assert (H0 : blocked N s 0) by (apply Hall; simpl; lia).
    destruct Hmove as (k & l & s' & Hk).
    { intros E. unfold blocked in H0. simpl in H0. unfold step_philosopher in H0.
      rewrite E in H0. discriminate. }
    assert (Hlt : (Z.of_nat k < N)%Z).
    { pose proof Hk as Hk'. simpl in Hk'. unfold step_philosopher in Hk'.
      destruct (philosophers s !! k) as [t|] eqn:Ht; [|discriminate].
      pose proof (thread_range N s k t W Ht) as Hr.
      destruct (wf_thread _ _ W k t Ht) as [E _]. lia. }
    specialize (Hall k Hlt). unfold blocked in Hall. congruence.
  - destruct (Z.ltb_spec (main_i s) N) as [Hlt|Hge].
    + exists Main. simpl. unfold step_main.
      destruct (Z.ltb_spec (main_i s) N); [eauto|lia].
    + destruct Hmove as (k & l & s' & Hk).
      * intros E. pose proof (wf_main _ _ W) as Hm. rewrite E in Hm. simpl in Hm. lia.
      * exists (Philosopher k). eauto.
Qed.

Lemma deadlock_freedom_witness :
  (2 <= NUM_PHILOSOPHERS)%Z /\ reachable NUM_PHILOSOPHERS busy_state /\
  ~ (forall k, (Z.of_nat k < NUM_PHILOSOPHERS)%Z -> blocked NUM_PHILOSOPHERS busy_state k)
  /\ (philosophers busy_state <> [] ->
      exists k l s', step NUM_PHILOSOPHERS (Philosopher k) busy_state = Next l s')
  /\ (exists a l s', step NUM_PHILOSOPHERS a busy_state = Next l s').
Proof.
  assert (HN : (2 <= NUM_PHILOSOPHERS)%Z) by (unfold NUM_PHILOSOPHERS; lia).
  assert (R : reachable NUM_PHILOSOPHERS busy_state).
  { exists busy_trace. apply (play_init NUM_PHILOSOPHERS busy_schedule). reflexivity. }
  split; [exact HN|]. split; [exact R|].
  exact (deadlock_freedom NUM_PHILOSOPHERS busy_state HN R).
Defined.

(** The bound [N >= 2] is needed: a single philosopher would have the same
    chopstick on both sides and wait for itself, with [main] waiting in
    [join]. *)
Example lone_philosopher_stuck :
  exists tr s,
    play 1 (Main :: repeat (Philosopher 0) 6) (init 1) = Some (tr, s)
    /\ step 1 (Philosopher 0) s = Blocked
    /\ step 1 Main s = Blocked.
Proof. eexists; eexists. split; [reflexivity|]. split; reflexivity. Qed.

(** ** Mutual exclusion *)

Lemma step_inv N a s id ins s' :
  step N a s = Next (Did id ins) s' ->
  exists k t sems',
    a = Philosopher k /\ philosophers s !! k = Some t /\ th_id t = id /\
    fetch N t = Some ins /\ exec ins (chopsticks s) = SemOk sems' /\
    s' = mkState sems' (<[k := advance N t]> (philosophers s)) (main_i s).
Proof.
  destruct a as [|k]; simpl.
  - unfold step_main. destruct (main_i s <? N)%Z; [discriminate|].
    destruct (philosophers s); discriminate.
  - unfold step_philosopher.
    destruct (philosophers s !! k) as [t|] eqn:Hk; [|discriminate].
    destruct (fetch N t) as [ins'|] eqn:Hf; [|discriminate].
    destruct (exec ins' (chopsticks s)) as [sems'| |f] eqn:Hx; try discriminate.
    intros [= <- <- <-]. exists k, t, sems'. repeat split; assumption.
Qed.

Lemma step_acquire_sem N a s id c s' :
  wf N s -> step N a s = Next (Did id (Acquire c)) s' ->
  sem_at (chopsticks s) c = Some 1%Z /\ sem_at (chopsticks s') c = Some 0%Z.
Proof.
  intros W Hs. apply step_inv in Hs as (k & t & sems' & -> & Hk & <- & Hf & Hx & ->).
  simpl in Hx. unfold acquire in Hx.
  destruct (sem_at (chopsticks s) c) as [v|] eqn:Hv; [|discriminate].
  destruct (Z.ltb_spec 0 v); [|discriminate]. injection Hx as <-.
  pose proof (sem_at_range N _ _ _ W Hv) as Hc.
  destruct (wf_count _ _ W c Hc) as (v' & Hv' & Hv0 & Hsum).
  rewrite Hv in Hv'. injection Hv' as <-.
  assert (v = 1%Z) as -> by lia.
  split; [reflexivity|]. cbn [chopsticks]. eapply sem_at_set_eq; eauto.
Qed.

Lemma step_release_sem N a s id c s' :
  wf N s -> step N a s = Next (Did id (Release c)) s' ->
  sem_at (chopsticks s) c = Some 0%Z /\ sem_at (chopsticks s') c = Some 1%Z.
Proof.
  intros W Hs. apply step_inv in Hs as (k & t & sems' & -> & Hk & <- & Hf & Hx & ->).
  simpl in Hx. unfold release in Hx.
  destruct (sem_at (chopsticks s) c) as [v|] eqn:Hv; [|discriminate].
  destruct (Z.ltb_spec v 1); [|discriminate]. injection Hx as <-.
  pose proof (sem_at_range N _ _ _ W Hv) as Hc.
  destruct (wf_count _ _ W c Hc) as (v' & Hv' & Hv0 & Hsum).
  rewrite Hv in Hv'. injection Hv' as <-.
  assert (v = 0%Z) as -> by lia.
  split; [reflexivity|]. cbn [chopsticks]. eapply sem_at_set_eq; eauto.
Qed.

Lemma holds_upd_gain id c l :
  holds_upd id c false l = true -> l = Did id (Acquire c).
Proof.
  destruct l as [i|id' [m|ms|c'|c']]; simpl; try discriminate;
    destruct (Z.eqb_spec id' id), (Z.eqb_spec c' c); simpl; try discriminate.
  intros _. subst. reflexivity.
Qed.

Lemma holds_upd_loss id c l :
  holds_upd id c true l = false -> l = Did id (Release c).
Proof.
  destruct l as [i|id' [m|ms|c'|c']]; simpl; try discriminate;
    destruct (Z.eqb_spec id' id), (Z.eqb_spec c' c); simpl; try discriminate.
  intros _. subst. reflexivity.
Qed.

Lemma holding_id_Some N s id c :
  holding_id N s id c = true ->
  exists t, (0 <= id)%Z /\ philosophers s !! Z.to_nat id = Some t /\ holding N t c = true.
Proof.
  unfold holding_id, thread_of. destruct (Z.ltb_spec id 0); [discriminate|].
  destruct (philosophers s !! Z.to_nat id) as [t|]; [|discriminate]. eauto.
Qed.

Lemma holding_id_slot N s k t c :
  philosophers s !! k = Some t -> holding_id N s (Z.of_nat k) c = holding N t c.
Proof.
  intros Hk. unfold holding_id, thread_of. destruct (Z.ltb_spec (Z.of_nat k) 0); [lia|].
  rewrite Nat2Z.id, Hk. reflexivity.
Qed.

(** C2. For every chopstick and every reachable state at most one
    philosopher holds it; its counter is 1 when nobody holds it and 0 when
    somebody does; a philosopher comes to hold it only by its own [acquire]
    that found the counter at 1, and ceases to hold it only by its own
    [release]. *)
Theorem mutual_exclusion N tr s :
  (2 <= N)%Z -> run N tr s ->
  (forall c i j, holds tr i c = true -> holds tr j c = true -> i = j)
  /\ (forall c, (0 <= c < N)%Z ->
        (sem_at (chopsticks s) c = Some 1%Z /\ forall i, holds tr i c = false)
        \/ (sem_at (chopsticks s) c = Some 0%Z /\ exists i, holds tr i c = true))
  /\ (forall a l s', step N a s = Next l s' -> forall i c,
        (holds tr i c = false -> holds (tr ++ [l]) i c = true ->
           l = Did i (Acquire c) /\
           sem_at (chopsticks s) c = Some 1%Z /\ sem_at (chopsticks s') c = Some 0%Z)
        /\ (holds tr i c = true -> holds (tr ++ [l]) i c = false ->
           l = Did i (Release c))).
Proof.
  intros HN R. pose proof (run_wf N tr s HN R) as W.
  pose proof (run_holds N tr s HN R) as Hh.
  split; [|split].
  - intros c i j Hi Hj. rewrite Hh in Hi, Hj.
    apply holding_id_Some in Hi as (ti & Hi0 & Hki & Hi).
    apply holding_id_Some in Hj as (tj & Hj0 & Hkj & Hj).
    pose proof (one_holder N s _ _ _ _ c HN W Hki Hkj Hi Hj). lia.
  - intros c Hc. destruct (wf_count _ _ W c Hc) as (v & Hv & Hv0 & Hsum).
    destruct (holders N s c) as [|n] eqn:Hn.
    + left. assert (v = 1%Z) as -> by lia. split; [exact Hv|].
      intros i. rewrite Hh. destruct (holding_id N s i c) eqn:E; [|reflexivity].
      apply holding_id_Some in E as (t & _ & Hk & Ht).
      pose proof (holders_member N s _ t c Hk Ht). lia.
    + right. assert (v = 0%Z) as -> by lia. split; [exact Hv|].
      destruct (count_witness (fun x => holding N x c = true) (philosophers s))
        as (k & t & Hk & Ht); [unfold holders in Hn; lia|].
      exists (Z.of_nat k). rewrite Hh, (holding_id_slot N s k t c Hk). exact Ht.
  - intros a l s' Hs i c. rewrite holds_snoc. split; intros -> Hl.
    + apply holds_upd_gain in Hl. subst l. split; [reflexivity|].
      eapply step_acquire_sem; eauto.
    + apply holds_upd_loss in Hl. exact Hl.
Qed.

Lemma mutual_exclusion_witness :
  (2 <= NUM_PHILOSOPHERS)%Z /\ run NUM_PHILOSOPHERS busy_trace busy_state /\
  (forall c i j, holds busy_trace i c = true -> holds busy_trace j c = true -> i = j)
  /\ (forall c, (0 <= c < NUM_PHILOSOPHERS)%Z ->
        (sem_at (chopsticks busy_state) c = Some 1%Z /\ forall i, holds busy_trace i c = false)
        \/ (sem_at (chopsticks busy_state) c = Some 0%Z /\ exists i, holds busy_trace i c = true))
  /\ (forall a l s', step NUM_PHILOSOPHERS a busy_state = Next l s' -> forall i c,
        (holds busy_trace i c = false -> holds (busy_trace ++ [l]) i c = true ->
           l = Did i (Acquire c) /\
           sem_at (chopsticks busy_state) c = Some 1%Z /\ sem_at (chopsticks s') c = Some 0%Z)
        /\ (holds busy_trace i c = true -> holds (busy_trace ++ [l]) i c = false ->
           l = Did i (Release c))).
Proof.
  assert (HN : (2 <= NUM_PHILOSOPHERS)%Z) by (unfold NUM_PHILOSOPHERS; lia).
  assert (R : run NUM_PHILOSOPHERS busy_trace busy_state)
    by (apply (play_init NUM_PHILOSOPHERS busy_schedule); reflexivity).
  split; [exact HN|]. split; [exact R|].
  exact (mutual_exclusion NUM_PHILOSOPHERS busy_trace busy_state HN R).
Defined.

(** ** Neighbours do not eat together *)

Lemma eat_position N id : take (length eat) (drop 8 (philosopher N id)) = eat.
Proof. unfold philosopher. destruct (Z.rem id 2 =? 0)%Z; reflexivity. Qed.

Lemma in_eat_Eating N s k :
  (2 <= N)%Z -> wf N s -> in_eat s k -> Eating N s k.
Proof.
  intros HN W (t & Hk & Hpc). exists t. split; [exact Hk|].
  pose proof (thread_distinct N s k t HN W Hk) as Hne.
  destruct t as [id pc]. cbn [th_id th_pc] in *. simpl in Hpc.
  assert (E5 : (5 <=? pc)%nat = true) by (apply Nat.leb_le; lia).
  assert (E7 : (7 <=? pc)%nat = true) by (apply Nat.leb_le; lia).
  assert (E11 : (pc <=? 11)%nat = true) by (apply Nat.leb_le; lia).
  assert (E12 : (pc <=? 12)%nat = true) by (apply Nat.leb_le; lia).
  destruct (Z.eqb_spec (Z.rem id 2) 0) as [Hp|Hp];
    [rewrite !holding_even by assumption | rewrite !holding_odd by assumption];
    rewrite E5, E7, E11, E12, !Z.eqb_refl; simpl; rewrite ?orb_true_r; auto.
Qed.

(** C5. Two philosophers that sit next to each other on the ring are never
    both eating in a reachable state: eating means holding both chopsticks
    (in particular it covers the whole call of [eat]), and they share one. *)
Theorem no_adjacent_eating N s i j :
  (2 <= N)%Z -> reachable N s ->
  Z.of_nat j = ((Z.of_nat i + 1) mod N)%Z ->
  (in_eat s i -> Eating N s i)
  /\ ~ (Eating N s i /\ Eating N s j).
Proof.
  intros HN [tr R] Hadj. pose proof (run_wf N tr s HN R) as W.
  split; [apply in_eat_Eating; assumption|].
  intros [(ti & Hki & _ & HRi) (tj & Hkj & HLj & _)].
  pose proof (thread_range N s i ti W Hki) as Hri.
  destruct (wf_thread _ _ W i ti Hki) as [Ei _].
  destruct (wf_thread _ _ W j tj Hkj) as [Ej _].
  rewrite Ei in *. rewrite Ej in *.
  assert (Hc : rightChopstick N (Z.of_nat i) = leftChopstick (Z.of_nat j)).
  { unfold rightChopstick, leftChopstick. rewrite Hadj.
    apply Z.rem_mod_nonneg; lia. }
  rewrite Hc in HRi.
  pose proof (one_holder N s i j ti tj _ HN W Hki Hkj HRi HLj) as E. subst j.
  rewrite rightChopstick_ring in Hc by exact Hri. unfold leftChopstick in Hc.
  destruct (Z.eqb_spec (Z.of_nat i + 1) N); lia.
Qed.

Lemma no_adjacent_eating_witness :
  (2 <= NUM_PHILOSOPHERS)%Z /\ reachable NUM_PHILOSOPHERS dinner_state /\
  Z.of_nat 2 = ((Z.of_nat 1 + 1) mod NUM_PHILOSOPHERS)%Z /\
  (in_eat dinner_state 1 -> Eating NUM_PHILOSOPHERS dinner_state 1) /\
  ~ (Eating NUM_PHILOSOPHERS dinner_state 1 /\ Eating NUM_PHILOSOPHERS dinner_state 2).
Proof.
  assert (HN : (2 <= NUM_PHILOSOPHERS)%Z) by (unfold NUM_PHILOSOPHERS; lia).
  assert (R : reachable NUM_PHILOSOPHERS dinner_state).
  { exists dinner_trace. apply (play_init NUM_PHILOSOPHERS dinner_schedule). reflexivity. }
  assert (A : Z.of_nat 2 = ((Z.of_nat 1 + 1) mod NUM_PHILOSOPHERS)%Z) by reflexivity.
  split; [exact HN|]. split; [exact R|]. split; [exact A|].
  exact (no_adjacent_eating NUM_PHILOSOPHERS dinner_state 1 2 HN R A).
Defined.

(** ** No protocol violation *)

(** C7. In every reachable state no step is undefined behaviour (no index
    outside the array, no [release] of a semaphore that is already 1); a
    thread about to [release] a chopstick holds it, and a thread about to
    [acquire] a chopstick does not hold it. *)
Theorem no_protocol_violation N tr s :
  (2 <= N)%Z -> run N tr s ->
  (forall a f, step N a s <> Fault f)
  /\ (forall k t c, philosophers s !! k = Some t ->
        fetch N t = Some (Release c) -> holds tr (th_id t) c = true)
  /\ (forall k t c, philosophers s !! k = Some t ->
        fetch N t = Some (Acquire c) -> holds tr (th_id t) c = false).
Proof.
  intros HN R. pose proof (run_wf N tr s HN R) as W.
  pose proof (run_holds N tr s HN R) as Hh.
  split; [|split].
  - intros [|k] f; simpl.
    + unfold step_main. destruct (main_i s <? N)%Z; [discriminate|].
      destruct (philosophers s); discriminate.
    + unfold step_philosopher.
      destruct (philosophers s !! k) as [t|] eqn:Hk; [|discriminate].
      destruct (fetch N t) as [ins|] eqn:Hf; [|discriminate].
      pose proof (exec_defined N s k t ins f HN W Hk Hf) as Hd.
      destruct (exec ins (chopsticks s)); try discriminate. congruence.
  - intros k t c Hk Hf. destruct (wf_thread _ _ W k t Hk) as [E _].
    rewrite Hh, E, (holding_id_slot N s k t c Hk).
    destruct t as [id pc]. apply release_holding; [|exact Hf].
    apply (thread_distinct N s k _ HN W Hk).
  - intros k t c Hk Hf. destruct (wf_thread _ _ W k t Hk) as [E _].
    rewrite Hh, E, (holding_id_slot N s k t c Hk).
    destruct t as [id pc]. apply acquire_not_holding; [|exact Hf].
    apply (thread_distinct N s k _ HN W Hk).
Qed.

Lemma no_protocol_violation_witness :
  (2 <= NUM_PHILOSOPHERS)%Z /\ run NUM_PHILOSOPHERS dinner_trace dinner_state /\
  (forall a f, step NUM_PHILOSOPHERS a dinner_state <> Fault f)
  /\ (forall k t c, philosophers dinner_state !! k = Some t ->
        fetch NUM_PHILOSOPHERS t = Some (Release c) -> holds dinner_trace (th_id t) c = true)
  /\ (forall k t c, philosophers dinner_state !! k = Some t ->
        fetch NUM_PHILOSOPHERS t = Some (Acquire c) -> holds dinner_trace (th_id t) c = false).
Proof.
  assert (HN : (2 <= NUM_PHILOSOPHERS)%Z) by (unfold NUM_PHILOSOPHERS; lia).
  assert (R : run NUM_PHILOSOPHERS dinner_trace dinner_state)
    by (apply (play_init NUM_PHILOSOPHERS dinner_schedule); reflexivity).
  split; [exact HN|]. split; [exact R|].
  exact (no_protocol_violation NUM_PHILOSOPHERS dinner_trace dinner_state HN R).
Defined.

(** ** Putting the chopsticks down *)

Lemma release_position N id :
  drop 8 (philosopher N id)
  = eat ++ [Release (leftChopstick id); Release (rightChopstick N id); Log PutDown].
Proof. unfold philosopher. destruct (Z.rem id 2 =? 0)%Z; reflexivity. Qed.

Lemma holding_outside N id pc c :
  leftChopstick id <> rightChopstick N id ->
  13 <= pc \/ pc <= 4 ->
  holding N (mkThread id pc) c = false.
Proof.
  intros Hne Hpc.
  assert (E : ((5 <=? pc)%nat = false /\ (7 <=? pc)%nat = false)
              \/ ((pc <=? 11)%nat = false /\ (pc <=? 12)%nat = false)).
  { destruct Hpc; [right|left]; split; apply Nat.leb_gt; lia. }
  destruct (Z.eqb_spec (Z.rem id 2) 0) as [Hp|Hp];
    [rewrite holding_even by assumption | rewrite holding_odd by assumption];
    destruct E as [[-> ->]|[-> ->]]; rewrite ?andb_false_r; reflexivity.
Qed.

(** ** The ring *)

Lemma uses_iff N id c :
  uses N id c <-> c = leftChopstick id \/ c = rightChopstick N id.
Proof.
  unfold uses, philosopher.
  destruct (Z.rem id 2 =? 0)%Z; simpl; split; intros H.
  all: try (destruct H as [H|H];
            repeat (destruct H as [H|H]; [try discriminate; injection H; auto|]);
            contradiction).
  all: destruct H as [->| ->]; auto 20.
Qed.

Lemma pred_ring N i :
  (0 <= i < N)%Z -> ((i - 1) mod N = if (i =? 0)%Z then N - 1 else i - 1)%Z.
Proof.
  intros H. destruct (Z.eqb_spec i 0) as [->|Hne].
  - symmetry. apply (Z.mod_unique_pos _ _ (-1)); lia.
  - apply Z.mod_small. lia.
Qed.

(** C4. The left chopstick of philosopher [i] is [i] and the right one is
    [(i+1) mod N]; these are the only chopsticks its code touches, and
    chopstick [i] is touched by exactly two philosophers, [i] and its
    neighbour [(i-1) mod N]. *)
Theorem ring_sharing N i :
  (2 <= N)%Z -> (0 <= i < N)%Z ->
  leftChopstick i = i
  /\ rightChopstick N i = ((i + 1) mod N)%Z
  /\ (forall c, uses N i c <-> c = i \/ c = ((i + 1) mod N)%Z)
  /\ (forall j, (0 <= j < N)%Z -> uses N j i <-> j = i \/ j = ((i - 1) mod N)%Z)
  /\ i <> ((i - 1) mod N)%Z.
Proof.
  intros HN Hi.
  assert (ER : rightChopstick N i = ((i + 1) mod N)%Z)
    by (unfold rightChopstick; apply Z.rem_mod_nonneg; lia).
  split; [reflexivity|]. split; [exact ER|]. split; [|split].
  - intros c. rewrite uses_iff, ER. reflexivity.
  - intros j Hj. rewrite uses_iff, (rightChopstick_ring N j Hj), (pred_ring N i Hi).
    unfold leftChopstick.
    destruct (Z.eqb_spec (j + 1) N), (Z.eqb_spec i 0); lia.
  - rewrite (pred_ring N i Hi). destruct (Z.eqb_spec i 0); lia.
Qed.

Lemma ring_sharing_witness :
  (2 <= NUM_PHILOSOPHERS)%Z /\ (0 <= 0 < NUM_PHILOSOPHERS)%Z /\
  leftChopstick 0 = 0%Z
  /\ rightChopstick NUM_PHILOSOPHERS 0 = ((0 + 1) mod NUM_PHILOSOPHERS)%Z
  /\ (forall c, uses NUM_PHILOSOPHERS 0 c <-> c = 0%Z \/ c = ((0 + 1) mod NUM_PHILOSOPHERS)%Z)
  /\ (forall j, (0 <= j < NUM_PHILOSOPHERS)%Z ->
        uses NUM_PHILOSOPHERS j 0 <-> j = 0%Z \/ j = ((0 - 1) mod NUM_PHILOSOPHERS)%Z)
  /\ 0%Z <> ((0 - 1) mod NUM_PHILOSOPHERS)%Z.
Proof.
  assert (HN : (2 <= NUM_PHILOSOPHERS)%Z) by (unfold NUM_PHILOSOPHERS; lia).
  assert (Hi : (0 <= 0 < NUM_PHILOSOPHERS)%Z) by (unfold NUM_PHILOSOPHERS; lia).
  split; [exact HN|]. split; [exact Hi|].
  exact (ring_sharing NUM_PHILOSOPHERS 0 HN Hi).
Defined.

(** C10. For a philosopher id inside [0, N) both chopstick indices are
    inside [0, N); every chopstick index in its code is one of the two, so
    no [acquire] or [release] of its loop indexes outside an array of [N]
    semaphores. *)
Theorem chopstick_index_bounds N i :
  (0 <= i < N)%Z ->
  (0 <= leftChopstick i < N)%Z
  /\ (0 <= rightChopstick N i < N)%Z
  /\ (forall c, uses N i c -> (0 <= c < N)%Z)
  /\ (forall c sems, uses N i c -> length sems = Z.to_nat N ->
        acquire c sems <> SemUB OutOfBounds /\ release c sems <> SemUB OutOfBounds).
Proof.
  intros Hi. pose proof (rightChopstick_bounds N i Hi) as HR.
  assert (Hu : forall c, uses N i c -> (0 <= c < N)%Z).
  { intros c Hc. apply uses_iff in Hc as [->| ->]; [unfold leftChopstick; lia|exact HR]. }
  split; [unfold leftChopstick; lia|]. split; [exact HR|]. split; [exact Hu|].
  intros c sems Hc Hlen. specialize (Hu c Hc).
  assert (Hs : is_Some (sem_at sems c)).
  { unfold sem_at. destruct (Z.ltb_spec c 0); [lia|].
    apply lookup_lt_is_Some_2. lia. }
  destruct Hs as [v Hv]. unfold acquire, release. rewrite Hv.
  destruct (0 <? v)%Z, (v <? 1)%Z; split; discriminate.
Qed.

Lemma chopstick_index_bounds_witness :
  (0 <= 4 < NUM_PHILOSOPHERS)%Z /\
  (0 <= leftChopstick 4 < NUM_PHILOSOPHERS)%Z
  /\ (0 <= rightChopstick NUM_PHILOSOPHERS 4 < NUM_PHILOSOPHERS)%Z
  /\ (forall c, uses NUM_PHILOSOPHERS 4 c -> (0 <= c < NUM_PHILOSOPHERS)%Z)
  /\ (forall c sems, uses NUM_PHILOSOPHERS 4 c ->
        length sems = Z.to_nat NUM_PHILOSOPHERS ->
        acquire c sems <> SemUB OutOfBounds /\ release c sems <> SemUB OutOfBounds).
Proof.
  assert (Hi : (0 <= 4 < NUM_PHILOSOPHERS)%Z) by (unfold NUM_PHILOSOPHERS; lia).
  split; [exact Hi|].
  exact (chopstick_index_bounds NUM_PHILOSOPHERS 4 Hi).
Defined.

(** ** The orchestrator *)

Lemma spawned_snoc tr l :
  spawned (tr ++ [l]) = spawned tr ++ match l with Spawned i => [i] | _ => [] end.
Proof. unfold spawned. rewrite flat_map_app. simpl. rewrite app_nil_r. reflexivity. Qed.

Lemma step_philosopher_inv N k s l s' :
  step_philosopher N k s = Next l s' ->
  exists t ins sems',
    philosophers s !! k = Some t /\ fetch N t = Some ins /\
    exec ins (chopsticks s) = SemOk sems' /\ l = Did (th_id t) ins /\
    s' = mkState sems' (<[k := advance N t]> (philosophers s)) (main_i s).
Proof.
  unfold step_philosopher.
  destruct (philosophers s !! k) as [t|] eqn:Hk; [|discriminate].
  destruct (fetch N t) as [ins|] eqn:Hf; [|discriminate].
  destruct (exec ins (chopsticks s)) as [sems'| |f] eqn:Hx; try discriminate.
  intros [= <- <-]. exists t, ins, sems'. auto.
Qed.

Lemma run_spawned N tr s :
  (2 <= N)%Z -> run N tr s ->
  spawned tr = seqZ 0 (main_i s) /\ map th_id (philosophers s) = seqZ 0 (main_i s).
Proof.
  intros HN R. induction R as [|tr s a l s' R [IH1 IH2] Hs]; [split; reflexivity|].
  pose proof (run_wf N tr s HN R) as W. pose proof (wf_main _ _ W) as Hm.
  rewrite spawned_snoc. destruct a as [|k]; simpl in Hs.
  - unfold step_main in Hs. destruct (Z.ltb_spec (main_i s) N).
    + injection Hs as <- <-. cbn [philosophers main_i].
      rewrite map_app, IH1, IH2. simpl.
      replace (main_i s + 1)%Z with (Z.of_nat (S (length (philosophers s)))) by lia.
      rewrite seqZ_S, Hm. split; reflexivity.
    + destruct (philosophers s); discriminate.
  - apply step_philosopher_inv in Hs as (t & ins & sems' & Hk & _ & _ & -> & ->).
    cbn [philosophers main_i]. rewrite app_nil_r. split; [exact IH1|].
    rewrite <- IH2. apply list_eq. intros n. rewrite !list_lookup_fmap.
    destruct (Nat.eq_dec k n) as [<-|Hne].
    + rewrite list_lookup_insert_eq by (eapply lookup_lt_Some; eauto).
      rewrite Hk. reflexivity.
    + rewrite list_lookup_insert_ne by exact Hne. reflexivity.
Qed.

Lemma main_completes N : forall n tr s,
  (2 <= N)%Z -> run N tr s -> Z.to_nat (N - main_i s) = n ->
  exists tr' s', run N (tr ++ tr') s' /\ main_i s' = N.
Proof.
  induction n as [|n IH]; intros tr s HN R Hn;
    pose proof (run_wf N tr s HN R) as W; pose proof (wf_started _ _ W) as Hle.
  - exists [], s. rewrite app_nil_r. split; [exact R|lia].
  - assert (Hs : step N Main s
                 = Next (Spawned (main_i s))
                        (mkState (chopsticks s)
                                 (philosophers s ++ [mkThread (main_i s) 0])
                                 (main_i s + 1))).
    { simpl. unfold step_main. destruct (Z.ltb_spec (main_i s) N); [reflexivity|lia]. }
    destruct (IH _ _ HN (run_step N tr s Main _ _ R Hs)) as (tr' & s' & R' & E).
    { cbn [main_i]. lia. }
    exists (Spawned (main_i s) :: tr'), s'. split; [|exact E].
    rewrite <- app_assoc in R'. exact R'.
Qed.

(** C9. The ring is built once, with [N] semaphores that all start at 1,
    and it keeps its size; [main] starts the threads one by one with the ids
    0, 1, 2, ... in order, each id once and each thread at the top of its
    loop; it never starts more than [N]; it can always go on until [N] are
    started, and when it has left its loop the started threads are exactly
    those with the ids 0 .. N-1.  The program has [N = 5]. *)
Theorem orchestrator_launch N tr s :
  (2 <= N)%Z -> run N tr s ->
  NUM_PHILOSOPHERS = 5%Z
  /\ init N = mkState (replicate (Z.to_nat N) 1%Z) [] 0
  /\ length (chopsticks s) = Z.to_nat N
  /\ spawned tr = seqZ 0 (main_i s)
  /\ map th_id (philosophers s) = seqZ 0 (main_i s)
  /\ NoDup (map th_id (philosophers s))
  /\ (main_i s <= N)%Z
  /\ (forall l s', step N Main s = Next l s' ->
        l = Spawned (main_i s) /\
        philosophers s' = philosophers s ++ [mkThread (main_i s) 0] /\
        chopsticks s' = chopsticks s)
  /\ ((forall l s', step N Main s <> Next l s') ->
        map th_id (philosophers s) = seqZ 0 N)
  /\ (exists tr' s', run N (tr ++ tr') s' /\
        map th_id (philosophers s') = seqZ 0 N).
Proof.
  intros HN R. pose proof (run_wf N tr s HN R) as W.
  destruct (run_spawned N tr s HN R) as [Hsp Hids].
  split; [reflexivity|]. split; [reflexivity|]. split; [apply (wf_sems _ _ W)|].
  split; [exact Hsp|]. split; [exact Hids|].
  split; [rewrite Hids; apply NoDup_seqZ|]. split; [apply (wf_started _ _ W)|].
  split; [|split].
  - intros l s' Hs. simpl in Hs. unfold step_main in Hs.
    destruct (main_i s <? N)%Z.
    + injection Hs as <- <-. auto.
    + destruct (philosophers s); discriminate.
  - intros Hstop. rewrite Hids. f_equal.
    pose proof (wf_started _ _ W).
    destruct (Z.ltb_spec (main_i s) N) as [Hlt|Hge]; [exfalso|lia].
    eapply Hstop. simpl. unfold step_main.
    destruct (Z.ltb_spec (main_i s) N); [reflexivity|lia].
  - destruct (main_completes N _ tr s HN R eq_refl) as (tr' & s' & R' & E).
    exists tr', s'. split; [exact R'|].
    destruct (run_spawned N _ s' HN R') as [_ H]. rewrite H, E. reflexivity.
Qed.

Lemma orchestrator_launch_witness :
  (2 <= NUM_PHILOSOPHERS)%Z /\ run NUM_PHILOSOPHERS busy_trace busy_state /\
  NUM_PHILOSOPHERS = 5%Z
  /\ init NUM_PHILOSOPHERS = mkState (replicate (Z.to_nat NUM_PHILOSOPHERS) 1%Z) [] 0
  /\ length (chopsticks busy_state) = Z.to_nat NUM_PHILOSOPHERS
  /\ spawned busy_trace = seqZ 0 (main_i busy_state)
  /\ map th_id (philosophers busy_state) = seqZ 0 (main_i busy_state)
  /\ NoDup (map th_id (philosophers busy_state))
  /\ (main_i busy_state <= NUM_PHILOSOPHERS)%Z
  /\ (forall l s', step NUM_PHILOSOPHERS Main busy_state = Next l s' ->
        l = Spawned (main_i busy_state) /\
        philosophers s' = philosophers busy_state ++ [mkThread (main_i busy_state) 0] /\
        chopsticks s' = chopsticks busy_state)
  /\ ((forall l s', step NUM_PHILOSOPHERS Main busy_state <> Next l s') ->
        map th_id (philosophers busy_state) = seqZ 0 NUM_PHILOSOPHERS)
  /\ (exists tr' s', run NUM_PHILOSOPHERS (busy_trace ++ tr') s' /\
        map th_id (philosophers s') = seqZ 0 NUM_PHILOSOPHERS).
Proof.
  assert (HN : (2 <= NUM_PHILOSOPHERS)%Z) by (unfold NUM_PHILOSOPHERS; lia).
  assert (R : run NUM_PHILOSOPHERS busy_trace busy_state)
    by (apply (play_init NUM_PHILOSOPHERS busy_schedule); reflexivity).
  split; [exact HN|]. split; [exact R|].
  exact (orchestrator_launch NUM_PHILOSOPHERS busy_trace busy_state HN R).
Defined.

(** ** Configuration *)

(** The program takes no configuration: the number of philosophers is the
    constant 5 and every sleep of the loop lasts the constant 3000 ms of
    [think] or [eat]; [main] tests nothing but [i < N] before it starts the
    thread with id [i]. *)
Lemma configuration_fixed :
  (2 <= NUM_PHILOSOPHERS)%Z
  /\ (0 < THINK_MS)%Z /\ (0 < EAT_MS)%Z
  /\ (forall N id ms, In (Sleep ms) (philosopher N id) -> ms = THINK_MS \/ ms = EAT_MS)
  /\ (forall N s, (main_i s < N)%Z ->
        step N Main s
        = Next (Spawned (main_i s))
               (mkState (chopsticks s)
                        (philosophers s ++ [mkThread (main_i s) 0])
                        (main_i s + 1))).
Proof.
  split; [unfold NUM_PHILOSOPHERS; lia|].
  split; [unfold THINK_MS; lia|]. split; [unfold EAT_MS; lia|]. split.
  - intros N id ms H. unfold philosopher in H.
    destruct (Z.rem id 2 =? 0)%Z; simpl in H;
      repeat (destruct H as [H|H]; [try discriminate; injection H as <-; auto|]);
      contradiction.
  - intros N s Hlt. simpl. unfold step_main.
    destruct (Z.ltb_spec (main_i s) N); [reflexivity|lia].
Qed.

(** ** The order of the two pick-ups *)

Lemma alternation_snoc n : forall a b,
  alternation (S n) a b = alternation n a b ++ [if Nat.even n then a else b].
Proof.
  induction n as [|n IH]; intros a b; [reflexivity|].
  change (alternation (S (S n)) a b) with (a :: alternation (S n) b a).
  rewrite IH.
  change (alternation (S n) a b) with (a :: alternation n b a).
  rewrite <- app_comm_cons. f_equal. f_equal.
  rewrite Nat.even_succ, <- Nat.negb_even. destruct (Nat.even n); reflexivity.
Qed.

Lemma acquired_by_snoc id tr l :
  acquired_by id (tr ++ [l])
  = acquired_by id tr ++ match l with
                         | Did id' (Acquire c) => if (id' =? id)%Z then [c] else []
                         | _ => []
                         end.
Proof. unfold acquired_by. rewrite flat_map_app. simpl. rewrite app_nil_r. reflexivity. Qed.

Lemma fetch_pickup N id :
  fetch N (mkThread id 4) = Some (Acquire (first_choice N id))
  /\ fetch N (mkThread id 6) = Some (Acquire (second_choice N id)).
Proof.
  unfold fetch, philosopher, first_choice, second_choice. cbn [th_id th_pc].
  destruct (Z.rem id 2 =? 0)%Z; split; reflexivity.
Qed.

Lemma advance_pc N t :
  th_pc (advance N t) = if (S (th_pc t) <? 14)%nat then S (th_pc t) else 0%nat.
Proof. unfold advance. cbv zeta. cbn [th_pc]. rewrite philosopher_length. reflexivity. Qed.

Lemma advance_phase N t ins :
  fetch N t = Some ins ->
  (forall c, ins <> Acquire c) ->
  phase (th_pc (advance N t)) = phase (th_pc t).
Proof.
  intros Hf Hna. pose proof (fetch_bound N t ins Hf) as Hpc.
  destruct t as [id pc]. cbn [th_pc] in *.
  destruct (fetch_pickup N id) as [H4 H6].
  assert (pc <> 4) by (intros ->; rewrite H4 in Hf; injection Hf as <-; eapply Hna; reflexivity).
  assert (pc <> 6) by (intros ->; rewrite H6 in Hf; injection Hf as <-; eapply Hna; reflexivity).
  unfold advance. cbv zeta. cbn [th_id th_pc]. rewrite philosopher_length.
  unfold phase.
  destruct (Nat.ltb_spec (S pc) 14), (Nat.leb_spec 5 (S pc)), (Nat.leb_spec (S pc) 6),
           (Nat.leb_spec 5 pc), (Nat.leb_spec pc 6); simpl; try reflexivity; lia.
Qed.

Lemma run_acquired N tr s :
  (2 <= N)%Z -> run N tr s ->
  forall id,
    match thread_of s id with
    | Some t => exists m, acquired_by id tr
                          = alternation (2 * m + phase (th_pc t))
                                        (first_choice N id) (second_choice N id)
    | None => acquired_by id tr = []
    end.
Proof.
  intros HN R. induction R as [|tr s a l s' R IH Hs]; intros id.
  - unfold thread_of. simpl. destruct (id <? 0)%Z; reflexivity.
  - pose proof (run_wf N tr s HN R) as W. specialize (IH id).
    rewrite acquired_by_snoc. destruct a as [|k]; simpl in Hs.
    + unfold step_main in Hs. destruct (Z.ltb_spec (main_i s) N).
      * injection Hs as <- <-. rewrite app_nil_r.
        unfold thread_of in *. cbn [philosophers].
        destruct (Z.ltb_spec id 0); [exact IH|].
        destruct (philosophers s !! Z.to_nat id) as [t|] eqn:Hk.
        -- rewrite (lookup_app_l_Some _ _ _ _ Hk). exact IH.
        -- apply lookup_ge_None in Hk.
           destruct (Nat.eq_dec (Z.to_nat id) (length (philosophers s))) as [E|E].
           ++ rewrite E, list_lookup_middle by reflexivity.
              exists 0%nat. rewrite IH. reflexivity.
           ++ rewrite lookup_ge_None_2; [exact IH|]. rewrite length_app. simpl. lia.
      * destruct (philosophers s); discriminate.
    + apply step_philosopher_inv in Hs as (t & ins & sems' & Hk & Hf & _ & -> & ->).
      destruct (wf_thread _ _ W k t Hk) as [E _].
      unfold thread_of in *. cbn [philosophers].
      destruct (Z.eqb_spec (th_id t) id) as [Eid|Hne].
      * subst id. destruct (Z.ltb_spec (th_id t) 0); [lia|].
        assert (Ek : Z.to_nat (th_id t) = k) by lia. rewrite Ek in *. rewrite Hk in IH.
        rewrite list_lookup_insert_eq by (eapply lookup_lt_Some; eauto).
        destruct IH as [m IH]. rewrite IH.
        destruct ins as [msg|ms|c|c];
          try (rewrite app_nil_r; exists m;
               erewrite advance_phase by (try exact Hf; intros c'; discriminate);
               reflexivity).
        destruct t as [id pc]. cbn [th_id th_pc] in *.
        destruct (fetch_pickup N id) as [H4 H6].
        pose proof Hf as Hf'. apply fetch_acquire in Hf' as [[-> _]|[-> _]].
        -- rewrite H4 in Hf. injection Hf as <-.
           exists m. change (phase 4) with 0%nat.
           rewrite advance_pc. cbn [th_pc]. change (phase _) with 1%nat.
           rewrite !Nat.add_0_r, Nat.add_1_r, alternation_snoc.
           replace (Nat.even (2 * m)) with true; [reflexivity|].
           symmetry. apply Nat.even_spec. exists m. reflexivity.
        -- rewrite H6 in Hf. injection Hf as <-.
           exists (S m). change (phase 6) with 1%nat.
           rewrite advance_pc. cbn [th_pc]. change (phase _) with 0%nat.
           replace (2 * S m + 0)%nat with (S (2 * m + 1)) by lia.
           rewrite alternation_snoc.
           replace (Nat.even (2 * m + 1)) with false; [reflexivity|].
           symmetry. rewrite Nat.add_1_r, Nat.even_succ, <- Nat.negb_even.
           replace (Nat.even (2 * m)) with true; [reflexivity|].
           symmetry. apply Nat.even_spec. exists m. reflexivity.
      * destruct ins; cbv iota; rewrite app_nil_r;
          (destruct (Z.ltb_spec id 0); [exact IH|]);
          rewrite list_lookup_insert_ne by lia; exact IH.
Qed.

Lemma acquired_alternates N tr s id :
  (2 <= N)%Z -> run N tr s ->
  exists n, acquired_by id tr = alternation n (first_choice N id) (second_choice N id).
Proof.
  intros HN R. pose proof (run_acquired N tr s HN R id) as H.
  destruct (thread_of s id) as [t|].
  - destruct H as [m H]. eauto.
  - exists 0%nat. exact H.
Qed.

Lemma second_needs_first N tr s k t :
  (2 <= N)%Z -> run N tr s -> philosophers s !! k = Some t ->
  fetch N t = Some (Acquire (second_choice N (th_id t))) ->
  holds tr (th_id t) (first_choice N (th_id t)) = true.
Proof.
  intros HN R Hk Hf. pose proof (run_wf N tr s HN R) as W.
  destruct (wf_thread _ _ W k t Hk) as [E _].
  pose proof (thread_distinct N s k t HN W Hk) as Hne.
  rewrite (run_holds N tr s HN R), E, (holding_id_slot N s k t _ Hk), <- E.
  destruct t as [id pc]. cbn [th_id] in *. clear E.
  apply fetch_acquire in Hf. revert Hf. unfold first_choice, second_choice.
  destruct (Z.eqb_spec (Z.rem id 2) 0) as [Hp|Hp];
    [rewrite holding_even by assumption | rewrite holding_odd by assumption];
    (intros [[_ Hf]|[-> _]]; [congruence|]);
    rewrite Z.eqb_refl; reflexivity.
Qed.

(** The acquisitions observed in that run. *)
Example handover_acquisitions :
  acquired_by 0 handover_trace = [1%Z]
  /\ acquired_by 1 handover_trace = [1%Z; 2%Z].
Proof. split; reflexivity. Qed.

(** ** Program order *)

Lemma thread_trace_snoc id tr l :
  thread_trace id (tr ++ [l])
  = thread_trace id tr ++ match l with
                          | Did id' ins => if (id' =? id)%Z then [ins] else []
                          | Spawned _ => []
                          end.
Proof. unfold thread_trace. rewrite flat_map_app. simpl. rewrite app_nil_r. reflexivity. Qed.

Lemma rounds_snoc (body : list Instr) m :
  concat (replicate m body) ++ body = concat (replicate (S m) body).
Proof.
  rewrite replicate_S_end, concat_app. simpl. rewrite app_nil_r. reflexivity.
Qed.

Lemma take_advance N t ins :
  fetch N t = Some ins ->
  (th_pc (advance N t) <> 0%nat /\
   take (th_pc (advance N t)) (philosopher N (th_id t))
   = take (th_pc t) (philosopher N (th_id t)) ++ [ins])
  \/ (th_pc (advance N t) = 0%nat /\
      take (th_pc t) (philosopher N (th_id t)) ++ [ins] = philosopher N (th_id t)).
Proof.
  intros Hf. pose proof (fetch_bound N t ins Hf) as Hpc.
  rewrite advance_pc. unfold fetch in Hf.
  rewrite <- (take_S_r _ _ _ Hf).
  destruct (Nat.ltb_spec (S (th_pc t)) 14).
  - left. split; [lia|reflexivity].
  - right. split; [reflexivity|]. apply take_ge. rewrite philosopher_length. lia.
Qed.

Lemma run_thread_trace N tr s :
  (2 <= N)%Z -> run N tr s ->
  forall id,
    match thread_of s id with
    | Some t => exists m, thread_trace id tr
                          = concat (replicate m (philosopher N id))
                            ++ take (th_pc t) (philosopher N id)
    | None => thread_trace id tr = []
    end.
Proof.
  intros HN R. induction R as [|tr s a l s' R IH Hs]; intros id.
  - unfold thread_of. simpl. destruct (id <? 0)%Z; reflexivity.
  - pose proof (run_wf N tr s HN R) as W. specialize (IH id).
    rewrite thread_trace_snoc. destruct a as [|k]; simpl in Hs.
    + unfold step_main in Hs. destruct (Z.ltb_spec (main_i s) N).
      * injection Hs as <- <-. rewrite app_nil_r.
        unfold thread_of in *. cbn [philosophers].
        destruct (Z.ltb_spec id 0); [exact IH|].
        destruct (philosophers s !! Z.to_nat id) as [t|] eqn:Hk.
        -- rewrite (lookup_app_l_Some _ _ _ _ Hk). exact IH.
        -- apply lookup_ge_None in Hk.
           destruct (Nat.eq_dec (Z.to_nat id) (length (philosophers s))) as [E|E].
           ++ rewrite E, list_lookup_middle by reflexivity.
              exists 0%nat. rewrite IH. reflexivity.
           ++ rewrite lookup_ge_None_2; [exact IH|]. rewrite length_app. simpl. lia.
      * destruct (philosophers s); discriminate.
    + apply step_philosopher_inv in Hs as (t & ins & sems' & Hk & Hf & _ & -> & ->).
      destruct (wf_thread _ _ W k t Hk) as [E _].
      unfold thread_of in *. cbn [philosophers].
      destruct (Z.eqb_spec (th_id t) id) as [Eid|Hne].
      * subst id. destruct (Z.ltb_spec (th_id t) 0); [lia|].
        assert (Ek : Z.to_nat (th_id t) = k) by lia. rewrite Ek in *. rewrite Hk in IH.
        rewrite list_lookup_insert_eq by (eapply lookup_lt_Some; eauto).
        destruct IH as [m IH]. rewrite IH, <- app_assoc.
        destruct (take_advance N t ins Hf) as [[_ Ht]|[E0 Ht]].
        -- exists m. rewrite Ht. reflexivity.
        -- exists (S m). rewrite Ht, E0, rounds_snoc. simpl. rewrite app_nil_r. reflexivity.
      * rewrite app_nil_r.
        destruct (Z.ltb_spec id 0); [exact IH|].
        rewrite list_lookup_insert_ne by lia. exact IH.
Qed.

(** X1. The steps of a philosopher in a run are those of its loop, in
    program order: a number of complete rounds of the loop body followed by
    the statements of the current round up to its program counter.  A
    philosopher that [main] has not started yet has taken no step. *)
Theorem program_order N tr s :
  (2 <= N)%Z -> run N tr s ->
  (forall k t, philosophers s !! k = Some t ->
     exists m, thread_trace (th_id t) tr
               = concat (replicate m (philosopher N (th_id t)))
                 ++ take (th_pc t) (philosopher N (th_id t)))
  /\ (forall id, thread_of s id = None -> thread_trace id tr = []).
Proof.
  intros HN R. pose proof (run_wf N tr s HN R) as W. split.
  - intros k t Hk. destruct (wf_thread _ _ W k t Hk) as [E _].
    pose proof (run_thread_trace N tr s HN R (th_id t)) as H.
    unfold thread_of in H. destruct (Z.ltb_spec (th_id t) 0); [lia|].
    rewrite E, Nat2Z.id, Hk, <- E in H. exact H.
  - intros id Hn. pose proof (run_thread_trace N tr s HN R id) as H.
    rewrite Hn in H. exact H.
Qed.

Lemma program_order_witness :
  (2 <= NUM_PHILOSOPHERS)%Z /\ run NUM_PHILOSOPHERS handover_trace handover_state /\
  (forall k t, philosophers handover_state !! k = Some t ->
     exists m, thread_trace (th_id t) handover_trace
               = concat (replicate m (philosopher NUM_PHILOSOPHERS (th_id t)))
                 ++ take (th_pc t) (philosopher NUM_PHILOSOPHERS (th_id t)))
  /\ (forall id, thread_of handover_state id = None -> thread_trace id handover_trace = []).
Proof.
  assert (HN : (2 <= NUM_PHILOSOPHERS)%Z) by (unfold NUM_PHILOSOPHERS; lia).
  assert (R : run NUM_PHILOSOPHERS handover_trace handover_state)
    by (apply (play_init NUM_PHILOSOPHERS handover_schedule); reflexivity).
  split; [exact HN|]. split; [exact R|].
  exact (program_order NUM_PHILOSOPHERS handover_trace handover_state HN R).
Defined.

(** ** What a philosopher announces *)

Lemma flat_map_rounds {A} (f : Instr -> list A) (body : list Instr) m :
  flat_map f (concat (replicate m body)) = concat (replicate m (flat_map f body)).
Proof.
  induction m as [|m IH]; [reflexivity|].
  simpl. rewrite flat_map_app, IH. reflexivity.
Qed.

Lemma turns_rounds {A} (a b : A) m j :
  (j <= 2)%nat ->
  concat (replicate m [a; b]) ++ take j [a; b] = turns (2 * m + j) a b.
Proof.
  intros Hj. induction m as [|m IH].
  - destruct j as [|[|[|j]]]; try reflexivity. lia.
  - replace (2 * S m + j)%nat with (S (S (2 * m + j))) by lia.
    change (turns (S (S (2 * m + j))) a b) with (a :: b :: turns (2 * m + j) a b).
    rewrite <- IH. reflexivity.
Qed.

Lemma alternation_turns n : forall a b, alternation n a b = turns n a b.
Proof. induction n as [|n IH]; intros a b; simpl; [reflexivity|]. rewrite IH. reflexivity. Qed.

Ltac by_position pc :=
  unfold philosopher;
  match goal with |- context [(Z.rem ?id 2 =? 0)%Z] => destruct (Z.rem id 2 =? 0)%Z end;
  do 14 (destruct pc as [|pc]; [reflexivity|]); exfalso; lia.

Lemma activity_prefix N id pc :
  (pc < 14)%nat ->
  flat_map activity_of (take pc (philosopher N id))
  = take (activity_count pc) [IsThinking; IsEating].
Proof. intros Hpc. by_position pc. Qed.

Lemma acquired_prefix N id pc :
  (pc < 14)%nat ->
  flat_map acquired_of (take pc (philosopher N id))
  = take (acquired_count pc) [first_choice N id; second_choice N id].
Proof. intros Hpc. unfold first_choice, second_choice. by_position pc. Qed.

Lemma picked_prefix N id pc :
  (pc < 14)%nat ->
  flat_map picked_of (take pc (philosopher N id))
  = take (picked_count pc) [first_choice N id; second_choice N id].
Proof. intros Hpc. unfold first_choice, second_choice. by_position pc. Qed.

Lemma activity_round N id :
  flat_map activity_of (philosopher N id) = [IsThinking; IsEating].
Proof. unfold philosopher. destruct (Z.rem id 2 =? 0)%Z; reflexivity. Qed.

Lemma acquired_round N id :
  flat_map acquired_of (philosopher N id) = [first_choice N id; second_choice N id].
Proof.
  unfold philosopher, first_choice, second_choice.
  destruct (Z.rem id 2 =? 0)%Z; reflexivity.
Qed.

Lemma picked_round N id :
  flat_map picked_of (philosopher N id) = [first_choice N id; second_choice N id].
Proof.
  unfold philosopher, first_choice, second_choice.
  destruct (Z.rem id 2 =? 0)%Z; reflexivity.
Qed.

Lemma acquired_by_thread_trace id tr :
  acquired_by id tr = flat_map acquired_of (thread_trace id tr).
Proof.
  unfold acquired_by, thread_trace. induction tr as [|l tr IH]; [reflexivity|].
  simpl. rewrite flat_map_app, <- IH. f_equal.
  destruct l as [i|id' ins]; [reflexivity|].
  destruct (id' =? id)%Z; destruct ins; reflexivity.
Qed.

(** The shape of what philosopher [id] has announced or acquired so far. *)
Lemma stream_shape {A} N tr s id (f : Instr -> list A) (count : nat -> nat) (x y : A) :
  (2 <= N)%Z -> run N tr s ->
  flat_map f (philosopher N id) = [x; y] ->
  (forall pc, (pc < 14)%nat ->
     flat_map f (take pc (philosopher N id)) = take (count pc) [x; y]) ->
  exists m j, flat_map f (thread_trace id tr)
              = concat (replicate m [x; y]) ++ take j [x; y]
              /\ match thread_of s id with
                 | Some t => j = count (th_pc t)
                 | None => j = 0%nat
                 end.
Proof.
  intros HN R Hround Hprefix.
  pose proof (run_thread_trace N tr s HN R id) as H.
  pose proof (run_wf N tr s HN R) as W.
  destruct (thread_of s id) as [t|] eqn:Ht.
  - destruct H as [m H]. exists m, (count (th_pc t)). split; [|reflexivity].
    rewrite H, flat_map_app, flat_map_rounds, Hround. f_equal.
    apply Hprefix. unfold thread_of in Ht.
    destruct (id <? 0)%Z; [discriminate|]. apply (wf_thread _ _ W _ t Ht).
  - exists 0%nat, 0%nat. rewrite H. split; reflexivity.
Qed.

(** X2. Every philosopher alternates between thinking and eating, as the
    header of the source says: in every run its announcements "is thinking"
    and "is eating" come in turns, starting with "is thinking". *)
Theorem thinking_eating_alternate N tr s id :
  (2 <= N)%Z -> run N tr s ->
  exists n, activities id tr = turns n IsThinking IsEating.
Proof.
  intros HN R.
  destruct (stream_shape N tr s id activity_of activity_count IsThinking IsEating
                         HN R (activity_round N id) (activity_prefix N id))
    as (m & j & H & Hj).
  exists (2 * m + j)%nat. unfold activities. rewrite H. apply turns_rounds.
  destruct (thread_of s id) as [t|]; subst j; [|lia].
  unfold activity_count. destruct (th_pc t =? 0)%nat, (th_pc t <=? 8)%nat; lia.
Qed.

Lemma thinking_eating_alternate_witness :
  (2 <= NUM_PHILOSOPHERS)%Z /\ run NUM_PHILOSOPHERS handover_trace handover_state /\
  exists n, activities 1 handover_trace = turns n IsThinking IsEating.
Proof.
  assert (HN : (2 <= NUM_PHILOSOPHERS)%Z) by (unfold NUM_PHILOSOPHERS; lia).
  assert (R : run NUM_PHILOSOPHERS handover_trace handover_state)
    by (apply (play_init NUM_PHILOSOPHERS handover_schedule); reflexivity).
  split; [exact HN|]. split; [exact R|].
  exact (thinking_eating_alternate NUM_PHILOSOPHERS handover_trace handover_state 1 HN R).
Defined.

(** X3. The pick-up messages of a philosopher report its acquisitions, in
    order and without delay: in every run the chopsticks named in its
    messages are its acquisitions so far, except possibly the latest one,
    whose message is then the next statement; so the messages name the first
    and the second chopstick in turns.  In the program, the messages of
    philosopher 0 name 1, 0, 1, 0, ... and those of philosopher 1 name 1, 2,
    1, 2, ... *)
Theorem pickup_messages_follow N tr s id :
  (2 <= N)%Z -> run N tr s ->
  (exists rest, acquired_by id tr = picked_by id tr ++ rest /\ (length rest <= 1)%nat)
  /\ (exists n, picked_by id tr
                = alternation n (first_choice N id) (second_choice N id))
  /\ (N = NUM_PHILOSOPHERS ->
      (exists n, picked_by 0 tr = alternation n 1 0)
      /\ (exists n, picked_by 1 tr = alternation n 1 2)).
Proof.
  intros HN R.
  assert (Halt : forall i, exists n, picked_by i tr
                 = alternation n (first_choice N i) (second_choice N i)).
  { intros i.
    destruct (stream_shape N tr s i picked_of picked_count _ _
                           HN R (picked_round N i) (picked_prefix N i))
      as (m & j & H & Hj).
    exists (2 * m + j)%nat. unfold picked_by. rewrite H, alternation_turns.
    apply turns_rounds.
    destruct (thread_of s i) as [t|]; subst j; [|lia].
    unfold picked_count. destruct (th_pc t <=? 5)%nat, (th_pc t <=? 7)%nat; lia. }
  split; [|split; [apply Halt|]].
  - destruct (stream_shape N tr s id picked_of picked_count _ _
                           HN R (picked_round N id) (picked_prefix N id))
      as (m & j & H & Hj).
    destruct (stream_shape N tr s id acquired_of acquired_count _ _
                           HN R (acquired_round N id) (acquired_prefix N id))
      as (m' & j' & H' & Hj').
    rewrite acquired_by_thread_trace. unfold picked_by.
    pose proof (run_thread_trace N tr s HN R id) as Ht.
    pose proof (run_wf N tr s HN R) as W.
    destruct (thread_of s id) as [t|] eqn:Et.
    + destruct Ht as [m0 Ht]. rewrite Ht, !flat_map_app, !flat_map_rounds.
      rewrite picked_round, acquired_round.
      assert (Hpc : (th_pc t < 14)%nat).
      { unfold thread_of in Et. destruct (id <? 0)%Z; [discriminate|].
        apply (wf_thread _ _ W _ t Et). }
      rewrite picked_prefix, acquired_prefix by exact Hpc.
      set (l := [first_choice N id; second_choice N id]).
      exists (drop (picked_count (th_pc t)) (take (acquired_count (th_pc t)) l)).
      assert (Hle : (picked_count (th_pc t) <= acquired_count (th_pc t)
                     <= S (picked_count (th_pc t)))%nat).
      { unfold picked_count, acquired_count.
        destruct (Nat.leb_spec (th_pc t) 5), (Nat.leb_spec (th_pc t) 7),
                 (Nat.leb_spec (th_pc t) 4), (Nat.leb_spec (th_pc t) 6); lia. }
      split.
      * rewrite <- app_assoc. f_equal.
        rewrite <- (take_drop (picked_count (th_pc t))
                              (take (acquired_count (th_pc t)) l)) at 1.
        f_equal. rewrite take_take. f_equal. lia.
      * rewrite length_drop, length_take. lia.
    + exists []. rewrite Ht. split; [reflexivity|simpl; lia].
  - intros ->. split; [apply (Halt 0%Z)|apply (Halt 1%Z)].
Qed.

Lemma pickup_messages_follow_witness :
  (2 <= NUM_PHILOSOPHERS)%Z /\ run NUM_PHILOSOPHERS handover_trace handover_state /\
  (exists rest, acquired_by 0 handover_trace = picked_by 0 handover_trace ++ rest
                /\ (length rest <= 1)%nat)
  /\ (exists n, picked_by 0 handover_trace
                = alternation n (first_choice NUM_PHILOSOPHERS 0)
                                (second_choice NUM_PHILOSOPHERS 0))
  /\ (NUM_PHILOSOPHERS = NUM_PHILOSOPHERS ->
      (exists n, picked_by 0 handover_trace = alternation n 1 0)
      /\ (exists n, picked_by 1 handover_trace = alternation n 1 2)).
Proof.
  assert (HN : (2 <= NUM_PHILOSOPHERS)%Z) by (unfold NUM_PHILOSOPHERS; lia).
  assert (R : run NUM_PHILOSOPHERS handover_trace handover_state)
    by (apply (play_init NUM_PHILOSOPHERS handover_schedule); reflexivity).
  split; [exact HN|]. split; [exact R|].
  exact (pickup_messages_follow NUM_PHILOSOPHERS handover_trace handover_state 0 HN R).
Defined.

(** ** The messages tell the truth *)

Ltac settle_holding :=
  repeat (rewrite ?Z.eqb_refl, ?andb_false_r, ?andb_true_r, ?orb_false_r, ?orb_true_r;
          simpl);
  try reflexivity.

Lemma log_position N id pc m :
  leftChopstick id <> rightChopstick N id ->
  fetch N (mkThread id pc) = Some (Log m) ->
  match m with
  | PickedUp side c =>
      c = side_chopstick N id side /\ holding N (mkThread id pc) c = true
  | IsEating | AteFor =>
      holding N (mkThread id pc) (leftChopstick id) = true
      /\ holding N (mkThread id pc) (rightChopstick N id) = true
  | IsThinking | ThoughtFor | IsHungry | PutDown =>
      forall c, holding N (mkThread id pc) c = false
  end.
Proof.
  intros Hne. destruct (Z.eqb_spec (Z.rem id 2) 0) as [Hp|Hp].
  - unfold fetch, philosopher. cbn [th_id th_pc].
    destruct (Z.eqb_spec (Z.rem id 2) 0) as [_|?]; [|contradiction].
    do 14 (destruct pc as [|pc];
           [simpl; intros [= <-]; repeat split; try intros c;
            rewrite holding_even by assumption; settle_holding|]).
    simpl. discriminate.
  - unfold fetch, philosopher. cbn [th_id th_pc].
    destruct (Z.eqb_spec (Z.rem id 2) 0) as [?|_]; [contradiction|].
    do 14 (destruct pc as [|pc];
           [simpl; intros [= <-]; repeat split; try intros c;
            rewrite holding_odd by assumption; settle_holding|]).
    simpl. discriminate.
Qed.

(** X4. What a philosopher writes to the log is true when it is written: a
    pick-up message names the chopstick of the side it mentions, and the
    philosopher holds that chopstick; "is eating" and "ate for" are written
    while it holds both chopsticks; "is thinking", "thought for", "is
    hungry" and "put down chopsticks" are written while it holds none. *)
Theorem messages_truthful N tr s a id m s' :
  (2 <= N)%Z -> run N tr s -> step N a s = Next (Did id (Log m)) s' ->
  match m with
  | PickedUp side c =>
      c = side_chopstick N id side /\ holds tr id c = true
  | IsEating | AteFor =>
      holds tr id (leftChopstick id) = true
      /\ holds tr id (rightChopstick N id) = true
  | IsThinking | ThoughtFor | IsHungry | PutDown =>
      forall c, holds tr id c = false
  end.
Proof.
  intros HN R Hs. pose proof (run_wf N tr s HN R) as W.
  apply step_inv in Hs as (k & t & sems' & _ & Hk & Eid & Hf & _ & _).
  destruct (wf_thread _ _ W k t Hk) as [E _].
  pose proof (thread_distinct N s k t HN W Hk) as Hne.
  assert (Hh : forall c, holds tr id c = holding N t c).
  { intros c. rewrite (run_holds N tr s HN R), <- Eid, E. apply holding_id_slot, Hk. }
  destruct t as [id' pc]. cbn [th_id] in *. subst id'.
  pose proof (log_position N id pc m Hne Hf) as H.
  destruct m; try (intros c; rewrite Hh; apply H);
    rewrite !Hh; exact H.
Qed.

Lemma messages_truthful_witness :
  (2 <= NUM_PHILOSOPHERS)%Z /\ run NUM_PHILOSOPHERS busy_trace busy_state /\
  step NUM_PHILOSOPHERS (Philosopher 1) busy_state
    = Next (Did 1 (Log (PickedUp Left 1)))
           (mkState (chopsticks busy_state)
                    (<[1%nat := mkThread 1 6]> (philosophers busy_state))
                    (main_i busy_state)) /\
  1%Z = side_chopstick NUM_PHILOSOPHERS 1 Left /\ holds busy_trace 1 1 = true.
Proof.
  assert (HN : (2 <= NUM_PHILOSOPHERS)%Z) by (unfold NUM_PHILOSOPHERS; lia).
  assert (R : run NUM_PHILOSOPHERS busy_trace busy_state)
    by (apply (play_init NUM_PHILOSOPHERS busy_schedule); reflexivity).
  assert (S : step NUM_PHILOSOPHERS (Philosopher 1) busy_state
              = Next (Did 1 (Log (PickedUp Left 1)))
                     (mkState (chopsticks busy_state)
                              (<[1%nat := mkThread 1 6]> (philosophers busy_state))
                              (main_i busy_state))) by reflexivity.
  split; [exact HN|]. split; [exact R|]. split; [exact S|].
  exact (messages_truthful NUM_PHILOSOPHERS busy_trace busy_state _ _ _ _ HN R S).
Defined.

(** ** Waiting *)

Lemma succ_ring N i :
  (0 <= i < N)%Z -> ((i + 1) mod N = if (i + 1 =? N)%Z then 0 else i + 1)%Z.
Proof.
  intros H. destruct (Z.eqb_spec (i + 1) N) as [->|Hne].
  - apply Z_mod_same_full.
  - apply Z.mod_small. lia.
Qed.

(** X5. A philosopher only ever waits in one of its two [acquire] calls, and
    then for a neighbour: when philosopher [k] is blocked, the counter of
    the chopstick it wants is 0 and that chopstick is held by the
    philosopher next to it on the ring, on the side of that chopstick. *)
Theorem waits_for_neighbour N tr s k :
  (2 <= N)%Z -> run N tr s -> blocked N s k ->
  exists t c k',
    philosophers s !! k = Some t
    /\ fetch N t = Some (Acquire c)
    /\ sem_at (chopsticks s) c = Some 0%Z
    /\ holds tr (Z.of_nat k') c = true
    /\ k' <> k
    /\ ((c = rightChopstick N (th_id t) /\ Z.of_nat k' = ((Z.of_nat k + 1) mod N)%Z)
        \/ (c = leftChopstick (th_id t) /\ Z.of_nat k' = ((Z.of_nat k - 1) mod N)%Z)).
Proof.
  intros HN R Hb. pose proof (run_wf N tr s HN R) as W. unfold blocked in Hb.
  destruct (philosophers s !! k) as [t|] eqn:Hk;
    [|simpl in Hb; unfold step_philosopher in Hb; rewrite Hk in Hb; discriminate].
  destruct (step_cases N s k t HN W Hk) as [(l & s' & Hs)|[_ (c & k' & t' & Hf & Hne & Hk' & Hh)]];
    [congruence|].
  exists t, c, k'.
  pose proof (thread_range N s k t W Hk) as Hr.
  destruct (wf_thread _ _ W k t Hk) as [E _].
  pose proof (acquire_position N s k t c HN W Hk Hf) as Hpos.
  pose proof (holder_position N s k' t' c HN W Hk' Hh) as (E' & Hr' & Hpos').
  pose proof (holding_in_range N s k' t' c HN W Hk' Hh) as Hc.
  split; [reflexivity|]. split; [exact Hf|]. split; [|split; [|split; [exact Hne|]]].
  - destruct (wf_count _ _ W c Hc) as (v & Hv & Hv0 & Hsum).
    pose proof (holders_member N s k' t' c Hk' Hh).
    rewrite Hv. f_equal. lia.
  - rewrite (run_holds N tr s HN R), (holding_id_slot N s k' t' c Hk'). exact Hh.
  - rewrite E in *. rewrite (rightChopstick_ring N _ Hr).
    rewrite (succ_ring N _ Hr), (pred_ring N _ Hr). unfold leftChopstick.
    destruct (Z.eqb_spec (Z.of_nat k + 1) N), (Z.eqb_spec (Z.of_nat k' + 1) N),
             (Z.eqb_spec (Z.of_nat k) 0); lia.
Qed.

Lemma waits_for_neighbour_witness :
  (2 <= NUM_PHILOSOPHERS)%Z /\ run NUM_PHILOSOPHERS busy_trace busy_state /\
  blocked NUM_PHILOSOPHERS busy_state 0 /\
  exists t c k',
    philosophers busy_state !! 0%nat = Some t
    /\ fetch NUM_PHILOSOPHERS t = Some (Acquire c)
    /\ sem_at (chopsticks busy_state) c = Some 0%Z
    /\ holds busy_trace (Z.of_nat k') c = true
    /\ k' <> 0%nat
    /\ ((c = rightChopstick NUM_PHILOSOPHERS (th_id t)
         /\ Z.of_nat k' = ((Z.of_nat 0 + 1) mod NUM_PHILOSOPHERS)%Z)
        \/ (c = leftChopstick (th_id t)
            /\ Z.of_nat k' = ((Z.of_nat 0 - 1) mod NUM_PHILOSOPHERS)%Z)).
Proof.
  assert (HN : (2 <= NUM_PHILOSOPHERS)%Z) by (unfold NUM_PHILOSOPHERS; lia).
  assert (R : run NUM_PHILOSOPHERS busy_trace busy_state)
    by (apply (play_init NUM_PHILOSOPHERS busy_schedule); reflexivity).
  assert (B : blocked NUM_PHILOSOPHERS busy_state 0) by reflexivity.
  split; [exact HN|]. split; [exact R|]. split; [exact B|].
  exact (waits_for_neighbour NUM_PHILOSOPHERS busy_trace busy_state 0 HN R B).
Defined.

(** ** Nobody leaves *)

(** X6. The threads never end: in every reachable state [main] is either
    starting a thread or waiting in [join], it never returns; a started
    philosopher is inside its loop and either takes a step or waits in one
    of its [acquire] calls, it neither leaves the loop nor runs into
    undefined behaviour; and a thread that is started stays started, with
    its id. *)
Theorem threads_never_end N s :
  (2 <= N)%Z -> reachable N s ->
  ((exists l s', step N Main s = Next l s') \/ step N Main s = Blocked)
  /\ (forall k t, philosophers s !! k = Some t ->
        is_Some (fetch N t)
        /\ ((exists l s', step N (Philosopher k) s = Next l s')
            \/ (step N (Philosopher k) s = Blocked
                /\ exists c, fetch N t = Some (Acquire c))))
  /\ (forall a l s' k t, step N a s = Next l s' -> philosophers s !! k = Some t ->
        exists t', philosophers s' !! k = Some t' /\ th_id t' = th_id t).
Proof.
  intros HN [tr R]. pose proof (run_wf N tr s HN R) as W. split; [|split].
  - simpl. unfold step_main. destruct (Z.ltb_spec (main_i s) N); [left; eauto|].
    destruct (philosophers s) eqn:E; [|right; reflexivity].
    pose proof (wf_main _ _ W) as Hm. rewrite E in Hm. simpl in Hm. lia.
  - intros k t Hk. split.
    + destruct (fetch_total N t) as [ins Hf]; [apply (wf_thread _ _ W k t Hk)|].
      rewrite Hf. eauto.
    + destruct (step_cases N s k t HN W Hk)
        as [H|[Hb (c & k' & t' & Hf & _)]]; [left; exact H|right; eauto].
  - intros a l s' k t Hs Hk. destruct a as [|k0]; simpl in Hs.
    + unfold step_main in Hs. destruct (main_i s <? N)%Z.
      * injection Hs as _ <-. exists t. split; [|reflexivity].
        cbn [philosophers]. apply lookup_app_l_Some, Hk.
      * destruct (philosophers s); discriminate.
    + apply step_philosopher_inv in Hs as (t0 & ins & sems' & Hk0 & _ & _ & _ & ->).
      cbn [philosophers]. destruct (Nat.eq_dec k0 k) as [->|Hne].
      * rewrite Hk in Hk0. injection Hk0 as <-. exists (advance N t).
        split; [|reflexivity].
        apply list_lookup_insert_eq. eapply lookup_lt_Some; eauto.
      * exists t. split; [|reflexivity].
        rewrite list_lookup_insert_ne by exact Hne. exact Hk.
Qed.

Lemma threads_never_end_witness :
  (2 <= NUM_PHILOSOPHERS)%Z /\ reachable NUM_PHILOSOPHERS busy_state /\
  ((exists l s', step NUM_PHILOSOPHERS Main busy_state = Next l s')
   \/ step NUM_PHILOSOPHERS Main busy_state = Blocked)
  /\ (forall k t, philosophers busy_state !! k = Some t ->
        is_Some (fetch NUM_PHILOSOPHERS t)
        /\ ((exists l s', step NUM_PHILOSOPHERS (Philosopher k) busy_state = Next l s')
            \/ (step NUM_PHILOSOPHERS (Philosopher k) busy_state = Blocked
                /\ exists c, fetch NUM_PHILOSOPHERS t = Some (Acquire c))))
  /\ (forall a l s' k t, step NUM_PHILOSOPHERS a busy_state = Next l s' ->
        philosophers busy_state !! k = Some t ->
        exists t', philosophers s' !! k = Some t' /\ th_id t' = th_id t).
Proof.
  assert (HN : (2 <= NUM_PHILOSOPHERS)%Z) by (unfold NUM_PHILOSOPHERS; lia).
  assert (R : reachable NUM_PHILOSOPHERS busy_state).
  { exists busy_trace. apply (play_init NUM_PHILOSOPHERS busy_schedule). reflexivity. }
  split; [exact HN|]. split; [exact R|].
  exact (threads_never_end NUM_PHILOSOPHERS busy_state HN R).
Defined.

(** ** How many eat at once *)

Lemma Eating_holds N s k :
  wf N s -> Eating N s k ->
  exists t, philosophers s !! k = Some t
            /\ holding N t (leftChopstick (Z.of_nat k)) = true
            /\ holding N t (rightChopstick N (Z.of_nat k)) = true.
Proof.
  intros W (t & Hk & HL & HR). destruct (wf_thread _ _ W k t Hk) as [E _].
  rewrite E in HL, HR. eauto.
Qed.

Lemma chopsticks_of_held N s ks c :
  wf N s -> (forall k, In k ks -> Eating N s k) ->
  In c (chopsticks_of N ks) ->
  exists k t, In k ks /\ philosophers s !! k = Some t /\ holding N t c = true.
Proof.
  intros W He Hc. unfold chopsticks_of in Hc. apply in_flat_map in Hc as (k & Hk & Hc).
  destruct (Eating_holds N s k W (He k Hk)) as (t & Ht & HL & HR).
  exists k, t. split; [exact Hk|]. split; [exact Ht|].
  destruct Hc as [<-|[<-|[]]]; assumption.
Qed.

Lemma chopsticks_of_NoDup N s ks :
  (2 <= N)%Z -> wf N s -> NoDup ks -> (forall k, In k ks -> Eating N s k) ->
  NoDup (chopsticks_of N ks).
Proof.
  intros HN W Hnd. induction Hnd as [|k ks Hk Hnd IH]; intros He; [constructor|].
  assert (He' : forall k', In k' ks -> Eating N s k') by (intros; apply He; right; assumption).
  specialize (IH He').
  destruct (Eating_holds N s k W (He k (or_introl eq_refl))) as (t & Ht & HL & HR).
  destruct (wf_thread _ _ W k t Ht) as [E _].
  pose proof (thread_distinct N s k t HN W Ht) as Hne. rewrite E in Hne.
  assert (Hfresh : forall c, holding N t c = true -> ~ In c (chopsticks_of N ks)).
  { intros c Hc Hin.
    destruct (chopsticks_of_held N s ks c W He' Hin) as (k' & t' & Hk' & Ht' & Hc').
    pose proof (one_holder N s k k' t t' c HN W Ht Ht' Hc Hc'). subst k'.
    apply Hk. apply list_elem_of_In. exact Hk'. }
  change (chopsticks_of N (k :: ks))
    with (leftChopstick (Z.of_nat k) :: rightChopstick N (Z.of_nat k) :: chopsticks_of N ks).
  constructor.
  - rewrite list_elem_of_In. intros [Hin|Hin]; [congruence|]. exact (Hfresh _ HL Hin).
  - constructor; [|exact IH]. rewrite list_elem_of_In. exact (Hfresh _ HR).
Qed.

Lemma chopsticks_of_length N ks : length (chopsticks_of N ks) = (2 * length ks)%nat.
Proof.
  induction ks as [|k ks IH]; [reflexivity|].
  change (chopsticks_of N (k :: ks))
    with (leftChopstick (Z.of_nat k) :: rightChopstick N (Z.of_nat k) :: chopsticks_of N ks).
  simpl. rewrite IH. lia.
Qed.

(** X7. At most half of the philosophers eat at the same time: in a
    reachable state, philosophers that are all eating hold two chopsticks
    each and no chopstick twice, so twice their number is at most [N] (at
    most two of the five philosophers of the program). *)
Theorem eaters_bound N s ks :
  (2 <= N)%Z -> reachable N s -> NoDup ks -> (forall k, In k ks -> Eating N s k) ->
  NoDup (chopsticks_of N ks)
  /\ (2 * Z.of_nat (length ks) <= N)%Z.
Proof.
  intros HN [tr R] Hnd He. pose proof (run_wf N tr s HN R) as W.
  pose proof (chopsticks_of_NoDup N s ks HN W Hnd He) as Hcs.
  split; [exact Hcs|].
  assert (Hsub : chopsticks_of N ks ⊆+ seqZ 0 N).
  { apply NoDup_submseteq; [exact Hcs|]. intros c Hc. apply list_elem_of_In in Hc.
    destruct (chopsticks_of_held N s ks c W He Hc) as (k & t & _ & Ht & Hh).
    pose proof (holding_in_range N s k t c HN W Ht Hh). apply elem_of_seqZ. lia. }
  apply submseteq_length in Hsub.
  rewrite chopsticks_of_length, length_seqZ in Hsub. lia.
Qed.

Lemma eaters_bound_witness :
  (2 <= NUM_PHILOSOPHERS)%Z /\ reachable NUM_PHILOSOPHERS feast_state /\
  NoDup [1; 3]%nat /\
  (forall k, In k [1; 3]%nat -> Eating NUM_PHILOSOPHERS feast_state k) /\
  NoDup (chopsticks_of NUM_PHILOSOPHERS [1; 3]%nat)
  /\ (2 * Z.of_nat (length [1; 3]%nat) <= NUM_PHILOSOPHERS)%Z.
Proof.
  assert (HN : (2 <= NUM_PHILOSOPHERS)%Z) by (unfold NUM_PHILOSOPHERS; lia).
  assert (R : reachable NUM_PHILOSOPHERS feast_state).
  { exists feast_trace. apply (play_init NUM_PHILOSOPHERS feast_schedule). reflexivity. }
  assert (D : NoDup [1; 3]%nat).
  { constructor; [|constructor; [|constructor]]; rewrite list_elem_of_In; simpl; lia. }
  assert (E : forall k, In k [1; 3]%nat -> Eating NUM_PHILOSOPHERS feast_state k).
  { intros k [<-|[<-|[]]].
    - exists (mkThread 1 8). repeat split; reflexivity.
    - exists (mkThread 3 8). repeat split; reflexivity. }
  split; [exact HN|]. split; [exact R|]. split; [exact D|]. split; [exact E|].
  exact (eaters_bound NUM_PHILOSOPHERS feast_state [1; 3]%nat HN R D E).
Defined.

(** ** A round without interruption *)

Lemma play_segment N k id : forall instrs pc sems sems' ps mi,
  (k < length ps)%nat ->
  (forall j ins, instrs !! j = Some ins -> philosopher N id !! (pc + j)%nat = Some ins) ->
  (pc + length instrs <= 14)%nat ->
  exec_all instrs sems = SemOk sems' ->
  play N (repeat (Philosopher k) (length instrs))
         (mkState sems (<[k := mkThread id (wrap pc)]> ps) mi)
  = Some (map (Did id) instrs,
          mkState sems' (<[k := mkThread id (wrap (pc + length instrs))]> ps) mi).
Proof.
  induction instrs as [|ins rest IH]; intros pc sems sems' ps mi Hk Hat Hlen Hx.
  - simpl in *. injection Hx as <-. rewrite Nat.add_0_r. reflexivity.
  - simpl in Hx. destruct (exec ins sems) as [sems1| |f] eqn:Hins; try discriminate.
    pose proof (Hat 0%nat ins eq_refl) as H0. rewrite Nat.add_0_r in H0.
    assert (Hpc : (pc < 14)%nat).
    { apply lookup_lt_Some in H0. rewrite philosopher_length in H0. exact H0. }
    assert (Hw : wrap pc = pc).
    { unfold wrap. destruct (Nat.ltb_spec pc 14); [reflexivity|lia]. }
    simpl repeat. simpl play. unfold step_philosopher. cbn [philosophers chopsticks main_i].
    rewrite list_lookup_insert_eq by exact Hk.
    unfold fetch. cbn [th_id th_pc]. rewrite Hw, H0, Hins.
    rewrite list_insert_insert_eq.
    assert (Ha : advance N (mkThread id pc) = mkThread id (wrap (S pc))).
    { unfold advance, wrap. cbv zeta. cbn [th_id th_pc]. rewrite philosopher_length.
      reflexivity. }
    rewrite Ha.
    rewrite (IH (S pc) sems1 sems' ps mi Hk).
    + simpl. replace (pc + S (length rest))%nat with (S pc + length rest)%nat by lia.
      reflexivity.
    + intros j ins' Hj. replace (S pc + j)%nat with (pc + S j)%nat by lia.
      apply Hat. exact Hj.
    + simpl in Hlen. lia.
    + exact Hx.
Qed.

Lemma sem_set_restore sems c v w :
  sem_at sems c = Some v -> sem_set (sem_set sems c w) c v = sems.
Proof.
  intros H. apply sem_at_Some in H as [_ H]. unfold sem_set.
  rewrite list_insert_insert_eq. apply list_insert_id. exact H.
Qed.

Lemma sem_set_swap sems c c' v w :
  (0 <= c)%Z -> (0 <= c')%Z -> c <> c' ->
  sem_set (sem_set sems c v) c' w = sem_set (sem_set sems c' w) c v.
Proof.
  intros H0 H0' Hne. unfold sem_set. apply list_insert_insert_ne. lia.
Qed.

Lemma acquire_free sems c :
  sem_at sems c = Some 1%Z -> acquire c sems = SemOk (sem_set sems c 0).
Proof. intros H. unfold acquire. rewrite H. reflexivity. Qed.

Lemma release_taken sems c :
  sem_at sems c = Some 0%Z -> release c sems = SemOk (sem_set sems c 1).
Proof. intros H. unfold release. rewrite H. reflexivity. Qed.

Lemma exec_round N id sems :
  leftChopstick id <> rightChopstick N id ->
  sem_at sems (leftChopstick id) = Some 1%Z ->
  sem_at sems (rightChopstick N id) = Some 1%Z ->
  exec_all (philosopher N id) sems = SemOk sems.
Proof.
  intros Hne HL HR.
  destruct (sem_at_Some _ _ _ HL) as [HL0 _]. destruct (sem_at_Some _ _ _ HR) as [HR0 _].
  set (L := leftChopstick id) in *. set (R := rightChopstick N id) in *.
  unfold philosopher. fold L. fold R. destruct (Z.rem id 2 =? 0)%Z; simpl.
  - rewrite (acquire_free sems R HR).
    rewrite (acquire_free (sem_set sems R 0) L)
      by (rewrite sem_at_set_ne by auto; exact HL).
    rewrite (release_taken (sem_set (sem_set sems R 0) L 0) L)
      by (eapply sem_at_set_eq; rewrite sem_at_set_ne by auto; exact HL).
    assert (E : sem_set (sem_set (sem_set sems R 0) L 0) L 1 = sem_set sems R 0).
    { apply sem_set_restore. rewrite sem_at_set_ne by auto. exact HL. }
    rewrite E.
    rewrite (release_taken (sem_set sems R 0) R) by (eapply sem_at_set_eq; exact HR).
    rewrite (sem_set_restore sems R 1 0 HR). reflexivity.
  - rewrite (acquire_free sems L HL).
    rewrite (acquire_free (sem_set sems L 0) R)
      by (rewrite sem_at_set_ne by auto; exact HR).
    rewrite (release_taken (sem_set (sem_set sems L 0) R 0) L)
      by (rewrite sem_at_set_ne by auto; eapply sem_at_set_eq; exact HL).
    assert (E : sem_set (sem_set (sem_set sems L 0) R 0) L 1 = sem_set sems R 0).
    { rewrite (sem_set_swap (sem_set sems L 0) R L 0 1) by auto.
      rewrite (sem_set_restore sems L 1 0 HL). reflexivity. }
    rewrite E.
    rewrite (release_taken (sem_set sems R 0) R) by (eapply sem_at_set_eq; exact HR).
    rewrite (sem_set_restore sems R 1 0 HR). reflexivity.
Qed.

(** X8. A philosopher at the top of its loop whose two chopsticks are free
    can run a whole round without interruption and without waiting: its
    fourteen statements execute in order, and afterwards the semaphores and
    all program counters are as before. *)
Theorem round_alone N tr s k t :
  (2 <= N)%Z -> run N tr s ->
  philosophers s !! k = Some t -> th_pc t = 0%nat ->
  sem_at (chopsticks s) (leftChopstick (th_id t)) = Some 1%Z ->
  sem_at (chopsticks s) (rightChopstick N (th_id t)) = Some 1%Z ->
  play N (repeat (Philosopher k) 14) s
  = Some (map (Did (th_id t)) (philosopher N (th_id t)), s).
Proof.
  intros HN R Hk Hpc HL HR. pose proof (run_wf N tr s HN R) as W.
  pose proof (thread_distinct N s k t HN W Hk) as Hne.
  destruct t as [id pc]. cbn [th_id th_pc] in *. subst pc.
  destruct s as [sems ps mi]. cbn [chopsticks philosophers] in *.
  pose proof (play_segment N k id (philosopher N id) 0 sems sems ps mi) as H.
  rewrite philosopher_length in H. change (wrap 0) with 0%nat in H.
  change (wrap (0 + 14)) with 0%nat in H.
  rewrite (list_insert_id ps k _ Hk) in H. apply H.
  - eapply lookup_lt_Some; eauto.
  - intros j ins Hj. exact Hj.
  - lia.
  - apply exec_round; assumption.
Qed.

Lemma round_alone_witness :
  (2 <= NUM_PHILOSOPHERS)%Z /\ run NUM_PHILOSOPHERS seated_trace seated_state /\
  philosophers seated_state !! 4%nat = Some (mkThread 4 0) /\ 0%nat = 0%nat /\
  sem_at (chopsticks seated_state) (leftChopstick 4) = Some 1%Z /\
  sem_at (chopsticks seated_state) (rightChopstick NUM_PHILOSOPHERS 4) = Some 1%Z /\
  play NUM_PHILOSOPHERS (repeat (Philosopher 4) 14) seated_state
  = Some (map (Did 4) (philosopher NUM_PHILOSOPHERS 4), seated_state).
Proof.
  assert (HN : (2 <= NUM_PHILOSOPHERS)%Z) by (unfold NUM_PHILOSOPHERS; lia).
  assert (R : run NUM_PHILOSOPHERS seated_trace seated_state)
    by (apply (play_init NUM_PHILOSOPHERS seated_schedule); reflexivity).
  assert (K : philosophers seated_state !! 4%nat = Some (mkThread 4 0)) by reflexivity.
  assert (HL : sem_at (chopsticks seated_state) (leftChopstick 4) = Some 1%Z) by reflexivity.
  assert (HR : sem_at (chopsticks seated_state) (rightChopstick NUM_PHILOSOPHERS 4)
               = Some 1%Z) by reflexivity.
  split; [exact HN|]. split; [exact R|]. split; [exact K|]. split; [reflexivity|].
  split; [exact HL|]. split; [exact HR|].
  exact (round_alone NUM_PHILOSOPHERS seated_trace seated_state 4 (mkThread 4 0)
                     HN R K eq_refl HL HR).
Defined.

(** ** Chains of waiting philosophers *)

(** X9. Waiting never goes far around the table: if a philosopher waits for
    a second one, which waits for a third one, which waits for a fourth
    one, then the fourth one is not waiting and can take a step.  So a
    chain of waiting philosophers has at most three links and never closes
    into a circle. *)
Theorem wait_chains_short N s k0 k1 k2 k3 :
  (2 <= N)%Z -> reachable N s ->
  waits_for N s k0 k1 -> waits_for N s k1 k2 -> waits_for N s k2 k3 ->
  exists l s', step N (Philosopher k3) s = Next l s'.
Proof.
  intros HN [tr R] (t0 & t1 & c0 & Hk0 & Hf0 & _ & Hk1 & Hh1)
         (t1' & t2 & c1 & Hk1' & Hf1 & _ & Hk2 & Hh2)
         (t2' & t3 & c2 & Hk2' & Hf2 & _ & Hk3 & Hh3).
  pose proof (run_wf N tr s HN R) as W.
  rewrite Hk1 in Hk1'. injection Hk1' as <-.
  rewrite Hk2 in Hk2'. injection Hk2' as <-.
  pose proof (acquire_position N s k0 t0 c0 HN W Hk0 Hf0) as A0.
  pose proof (acquire_position N s k1 t1 c1 HN W Hk1 Hf1) as A1.
  pose proof (acquire_position N s k2 t2 c2 HN W Hk2 Hf2) as A2.
  pose proof (holder_position N s k1 t1 c0 HN W Hk1 Hh1) as (_ & R1 & P1).
  pose proof (holder_position N s k2 t2 c1 HN W Hk2 Hh2) as (_ & R2 & P2).
  pose proof (holder_position N s k3 t3 c2 HN W Hk3 Hh3) as (_ & R3 & P3).
  pose proof (thread_range N s k0 t0 W Hk0) as R0.
  destruct (wf_thread _ _ W k0 t0 Hk0) as [E0 _]. rewrite E0 in R0.
  apply (step_free N s k3 t3 HN W Hk3).
  - intros E4. rewrite !Z.rem_mod_nonneg in * by lia.
    destruct (Z.eqb_spec (Z.of_nat k0 + 1) N), (Z.eqb_spec (Z.of_nat k1 + 1) N),
             (Z.eqb_spec (Z.of_nat k2 + 1) N), (Z.eqb_spec (Z.of_nat k3 + 1) N);
      Z.div_mod_to_equations; lia.
  - intros E6. rewrite !Z.rem_mod_nonneg in * by lia.
    destruct (Z.eqb_spec (Z.of_nat k0 + 1) N), (Z.eqb_spec (Z.of_nat k1 + 1) N),
             (Z.eqb_spec (Z.of_nat k2 + 1) N), (Z.eqb_spec (Z.of_nat k3 + 1) N);
      Z.div_mod_to_equations; lia.
Qed.

Lemma wait_chains_short_witness :
  (2 <= NUM_PHILOSOPHERS)%Z /\ reachable NUM_PHILOSOPHERS queue_state /\
  waits_for NUM_PHILOSOPHERS queue_state 1 0 /\
  waits_for NUM_PHILOSOPHERS queue_state 0 4 /\
  waits_for NUM_PHILOSOPHERS queue_state 4 3 /\
  exists l s', step NUM_PHILOSOPHERS (Philosopher 3) queue_state = Next l s'.
Proof.
  assert (HN : (2 <= NUM_PHILOSOPHERS)%Z) by (unfold NUM_PHILOSOPHERS; lia).
  assert (R : reachable NUM_PHILOSOPHERS queue_state).
  { exists queue_trace. apply (play_init NUM_PHILOSOPHERS queue_schedule). reflexivity. }
  assert (W10 : waits_for NUM_PHILOSOPHERS queue_state 1 0).
  { exists (mkThread 1 4), (mkThread 0 6), 1%Z. repeat split; reflexivity. }
  assert (W04 : waits_for NUM_PHILOSOPHERS queue_state 0 4).
  { exists (mkThread 0 6), (mkThread 4 6), 0%Z. repeat split; reflexivity. }
  assert (W43 : waits_for NUM_PHILOSOPHERS queue_state 4 3).
  { exists (mkThread 4 6), (mkThread 3 8), 4%Z. repeat split; reflexivity. }
  split; [exact HN|]. split; [exact R|]. split; [exact W10|]. split; [exact W04|].
  split; [exact W43|].
  exact (wait_chains_short NUM_PHILOSOPHERS queue_state 1 0 4 3 HN R W10 W04 W43).
Defined.

(** ** After the release step *)

Lemma free_or_neighbour N tr s k t c :
  (2 <= N)%Z -> run N tr s -> philosophers s !! k = Some t ->
  (forall c', holding N t c' = false) ->
  c = leftChopstick (th_id t) \/ c = rightChopstick N (th_id t) ->
  (sem_at (chopsticks s) c = Some 1%Z
   /\ acquire c (chopsticks s) = SemOk (sem_set (chopsticks s) c 0))
  \/ (sem_at (chopsticks s) c = Some 0%Z
      /\ exists k', k' <> k /\ holds tr (Z.of_nat k') c = true
           /\ ((c = leftChopstick (th_id t)
                /\ Z.of_nat k' = ((Z.of_nat k - 1) mod N)%Z)
               \/ (c = rightChopstick N (th_id t)
                   /\ Z.of_nat k' = ((Z.of_nat k + 1) mod N)%Z))).
Proof.
  intros HN R Hk Hnone Hc. pose proof (run_wf N tr s HN R) as W.
  pose proof (thread_range N s k t W Hk) as Hr.
  destruct (wf_thread _ _ W k t Hk) as [E _].
  pose proof (rightChopstick_bounds N _ Hr) as HRb.
  assert (Hcr : (0 <= c < N)%Z) by (destruct Hc as [->| ->]; [unfold leftChopstick; lia|exact HRb]).
  destruct (wf_count _ _ W c Hcr) as (v & Hv & Hv0 & Hsum).
  destruct (holders N s c) as [|n] eqn:Hn.
  - left. assert (v = 1%Z) as -> by lia. split; [exact Hv|]. apply acquire_free, Hv.
  - right. assert (v = 0%Z) as -> by lia. split; [exact Hv|].
    destruct (count_witness (fun x => holding N x c = true) (philosophers s))
      as (k' & t' & Hk' & Hh'); [unfold holders in Hn; lia|].
    assert (Hne : k' <> k).
    { intros ->. rewrite Hk in Hk'. injection Hk' as <-. rewrite Hnone in Hh'. discriminate. }
    exists k'. split; [exact Hne|]. split.
    + rewrite (run_holds N tr s HN R), (holding_id_slot N s k' t' c Hk'). exact Hh'.
    + pose proof (holder_position N s k' t' c HN W Hk' Hh') as (_ & Hr' & Hpos).
      rewrite E in *. rewrite (rightChopstick_ring N _ Hr) in *.
      rewrite (succ_ring N _ Hr), (pred_ring N _ Hr). unfold leftChopstick in *.
      destruct (Z.eqb_spec (Z.of_nat k + 1) N), (Z.eqb_spec (Z.of_nat k' + 1) N),
               (Z.eqb_spec (Z.of_nat k) 0); lia.
Qed.

(** C6. In every round of its loop a philosopher, once [eat] is over,
    releases both of its chopsticks (the left one, then the right one)
    before the loop starts over.  A [release] never waits; right after it
    the counter of the released chopstick is 1, an [acquire] on it succeeds
    at once, and the philosopher no longer holds it.  After the release step
    and until its next first [acquire] the philosopher holds no chopstick,
    so none is carried into the next round, and each of its two chopsticks
    is available to its neighbours: free, with an [acquire] that succeeds at
    once, or already picked up by the one neighbour that shares it. *)
Theorem release_restores N tr s k t :
  (2 <= N)%Z -> run N tr s -> philosophers s !! k = Some t ->
  drop 8 (philosopher N (th_id t))
    = eat ++ [Release (leftChopstick (th_id t));
              Release (rightChopstick N (th_id t)); Log PutDown]
  /\ (forall c, fetch N t = Some (Release c) ->
        exists s', step N (Philosopher k) s = Next (Did (th_id t) (Release c)) s' /\
                   sem_at (chopsticks s') c = Some 1%Z /\
                   acquire c (chopsticks s') = SemOk (sem_set (chopsticks s') c 0) /\
                   holds (tr ++ [Did (th_id t) (Release c)]) (th_id t) c = false)
  /\ (13 <= th_pc t \/ th_pc t <= 4 -> forall c, holds tr (th_id t) c = false)
  /\ (13 <= th_pc t \/ th_pc t <= 4 ->
      forall c, c = leftChopstick (th_id t) \/ c = rightChopstick N (th_id t) ->
        (sem_at (chopsticks s) c = Some 1%Z
         /\ acquire c (chopsticks s) = SemOk (sem_set (chopsticks s) c 0))
        \/ (sem_at (chopsticks s) c = Some 0%Z
            /\ exists k', k' <> k /\ holds tr (Z.of_nat k') c = true
                 /\ ((c = leftChopstick (th_id t)
                      /\ Z.of_nat k' = ((Z.of_nat k - 1) mod N)%Z)
                     \/ (c = rightChopstick N (th_id t)
                         /\ Z.of_nat k' = ((Z.of_nat k + 1) mod N)%Z)))).
Proof.
  intros HN R Hk. pose proof (run_wf N tr s HN R) as W.
  pose proof (thread_distinct N s k t HN W Hk) as Hne.
  assert (Hout : 13 <= th_pc t \/ th_pc t <= 4 -> forall c, holding N t c = false).
  { intros Hpc c. destruct t as [id pc]. apply holding_outside; assumption. }
  split; [apply release_position|]. split; [|split].
  - intros c Hf.
    assert (Hs : exists s', step N (Philosopher k) s = Next (Did (th_id t) (Release c)) s').
    { simpl. unfold step_philosopher. rewrite Hk, Hf.
      pose proof (fun f => exec_defined N s k t _ f HN W Hk Hf) as Hd.
      destruct (exec (Release c) (chopsticks s)) as [sems'| |f] eqn:Hx.
      - eauto.
      - simpl in Hx. unfold release in Hx.
        destruct (sem_at (chopsticks s) c); [|discriminate].
        destruct (z <? 1)%Z; discriminate.
      - exfalso. eapply Hd; reflexivity. }
    destruct Hs as [s' Hs]. exists s'. split; [exact Hs|].
    destruct (step_release_sem N _ s _ c s' W Hs) as [_ H1].
    split; [exact H1|]. split; [apply acquire_free, H1|].
    rewrite holds_snoc. simpl. rewrite !Z.eqb_refl. reflexivity.
  - intros Hpc c. destruct (wf_thread _ _ W k t Hk) as [E _].
    rewrite (run_holds N tr s HN R), E, (holding_id_slot N s k t c Hk).
    apply Hout, Hpc.
  - intros Hpc c Hc. apply free_or_neighbour; auto.
Qed.

Lemma release_restores_witness :
  (2 <= NUM_PHILOSOPHERS)%Z /\ run NUM_PHILOSOPHERS handover_trace handover_state /\
  philosophers handover_state !! 1%nat = Some (mkThread 1 12) /\
  drop 8 (philosopher NUM_PHILOSOPHERS 1)
    = eat ++ [Release (leftChopstick 1);
              Release (rightChopstick NUM_PHILOSOPHERS 1); Log PutDown]
  /\ (forall c, fetch NUM_PHILOSOPHERS (mkThread 1 12) = Some (Release c) ->
        exists s', step NUM_PHILOSOPHERS (Philosopher 1) handover_state
                     = Next (Did 1 (Release c)) s' /\
                   sem_at (chopsticks s') c = Some 1%Z /\
                   acquire c (chopsticks s') = SemOk (sem_set (chopsticks s') c 0) /\
                   holds (handover_trace ++ [Did 1 (Release c)]) 1 c = false)
  /\ (13 <= 12 \/ 12 <= 4 -> forall c, holds handover_trace 1 c = false)
  /\ (13 <= 12 \/ 12 <= 4 ->
      forall c, c = leftChopstick 1 \/ c = rightChopstick NUM_PHILOSOPHERS 1 ->
        (sem_at (chopsticks handover_state) c = Some 1%Z
         /\ acquire c (chopsticks handover_state)
            = SemOk (sem_set (chopsticks handover_state) c 0))
        \/ (sem_at (chopsticks handover_state) c = Some 0%Z
            /\ exists k', k' <> 1%nat /\ holds handover_trace (Z.of_nat k') c = true
                 /\ ((c = leftChopstick 1
                      /\ Z.of_nat k' = ((Z.of_nat 1 - 1) mod NUM_PHILOSOPHERS)%Z)
                     \/ (c = rightChopstick NUM_PHILOSOPHERS 1
                         /\ Z.of_nat k' = ((Z.of_nat 1 + 1) mod NUM_PHILOSOPHERS)%Z)))).
Proof.
  assert (HN : (2 <= NUM_PHILOSOPHERS)%Z) by (unfold NUM_PHILOSOPHERS; lia).
  assert (R : run NUM_PHILOSOPHERS handover_trace handover_state)
    by (apply (play_init NUM_PHILOSOPHERS handover_schedule); reflexivity).
  assert (K : philosophers handover_state !! 1%nat = Some (mkThread 1 12)) by reflexivity.
  split; [exact HN|]. split; [exact R|]. split; [exact K|].
  exact (release_restores NUM_PHILOSOPHERS handover_trace handover_state 1
                          (mkThread 1 12) HN R K).
Defined.

(** In the run above philosopher 1 then puts down chopstick 2 and has
    finished its release step; its left chopstick 1 is with its neighbour,
    philosopher 0, which was waiting for it. *)
Example handover_to_neighbour :
  exists s',
    step NUM_PHILOSOPHERS (Philosopher 1) handover_state
      = Next (Did 1 (Release (rightChopstick NUM_PHILOSOPHERS 1))) s' /\
    philosophers s' !! 1%nat = Some (mkThread 1 13) /\
    sem_at (chopsticks s') (rightChopstick NUM_PHILOSOPHERS 1) = Some 1%Z /\
    sem_at (chopsticks s') (leftChopstick 1) = Some 0%Z /\
    holds (handover_trace ++ [Did 1 (Release (rightChopstick NUM_PHILOSOPHERS 1))])
          0 (leftChopstick 1) = true.
Proof. eexists. repeat split; reflexivity. Qed.

(** ** The two pick-ups of every round *)

Lemma acquired_by_own id (instrs : list Instr) :
  acquired_by id (map (Did id) instrs) = flat_map acquired_of instrs.
Proof.
  unfold acquired_by. induction instrs as [|ins rest IH]; [reflexivity|].
  simpl. rewrite IH, Z.eqb_refl. destruct ins; reflexivity.
Qed.

Lemma round_plays N s k t :
  (2 <= N)%Z -> wf N s ->
  philosophers s !! k = Some t -> th_pc t = 0%nat ->
  sem_at (chopsticks s) (leftChopstick (th_id t)) = Some 1%Z ->
  sem_at (chopsticks s) (rightChopstick N (th_id t)) = Some 1%Z ->
  play N (repeat (Philosopher k) 14) s
  = Some (map (Did (th_id t)) (philosopher N (th_id t)), s).
Proof.
  intros HN W Hk Hpc HL HR.
  pose proof (thread_distinct N s k t HN W Hk) as Hne.
  destruct t as [id pc]. cbn [th_id th_pc] in *. subst pc.
  destruct s as [sems ps mi]. cbn [chopsticks philosophers] in *.
  pose proof (play_segment N k id (philosopher N id) 0 sems sems ps mi) as H.
  rewrite philosopher_length in H. change (wrap 0) with 0%nat in H.
  change (wrap (0 + 14)) with 0%nat in H.
  rewrite (list_insert_id ps k _ Hk) in H. apply H.
  - eapply lookup_lt_Some; eauto.
  - intros j ins Hj. exact Hj.
  - lia.
  - apply exec_round; assumption.
Qed.

(** C3. Every round of the loop of an even philosopher acquires its right
    chopstick and then its left one, and every round of an odd philosopher
    its left chopstick and then its right one, and nothing else.  In every
    run the steps of a started philosopher are complete rounds followed by
    the begun one, so its acquisitions are those two, in that order, once
    for each complete round, followed by those of the begun round; a round
    can be carried out whenever the philosopher is at the top of its loop
    with both chopsticks free.  Hence its acquisitions alternate, starting
    with the first chopstick, and a thread about to acquire its second
    chopstick holds the first.  In the program a round of philosopher 0
    acquires 1, then 0, and a round of philosopher 1 acquires 1, then 2. *)
Theorem acquisition_order N tr s id :
  (2 <= N)%Z -> run N tr s -> (0 <= id < N)%Z ->
  (Z.rem id 2 = 0%Z ->
     flat_map acquired_of (philosopher N id)
     = [rightChopstick N id; leftChopstick id]
     /\ (exists n, acquired_by id tr
                   = alternation n (rightChopstick N id) (leftChopstick id))
     /\ (forall k pc, philosophers s !! k = Some (mkThread id pc) ->
           fetch N (mkThread id pc) = Some (Acquire (leftChopstick id)) ->
           holds tr id (rightChopstick N id) = true))
  /\ (Z.rem id 2 <> 0%Z ->
     flat_map acquired_of (philosopher N id)
     = [leftChopstick id; rightChopstick N id]
     /\ (exists n, acquired_by id tr
                   = alternation n (leftChopstick id) (rightChopstick N id))
     /\ (forall k pc, philosophers s !! k = Some (mkThread id pc) ->
           fetch N (mkThread id pc) = Some (Acquire (rightChopstick N id)) ->
           holds tr id (leftChopstick id) = true))
  /\ (forall k t, philosophers s !! k = Some t -> th_id t = id ->
        exists m,
          thread_trace id tr
          = concat (replicate m (philosopher N id))
            ++ take (th_pc t) (philosopher N id)
          /\ acquired_by id tr
             = concat (replicate m (flat_map acquired_of (philosopher N id)))
               ++ flat_map acquired_of (take (th_pc t) (philosopher N id)))
  /\ (thread_of s id = None -> acquired_by id tr = [])
  /\ (forall k t, philosophers s !! k = Some t -> th_id t = id ->
        th_pc t = 0%nat ->
        sem_at (chopsticks s) (leftChopstick id) = Some 1%Z ->
        sem_at (chopsticks s) (rightChopstick N id) = Some 1%Z ->
        play N (repeat (Philosopher k) 14) s
        = Some (map (Did id) (philosopher N id), s)
        /\ acquired_by id (tr ++ map (Did id) (philosopher N id))
           = acquired_by id tr ++ flat_map acquired_of (philosopher N id))
  /\ (N = NUM_PHILOSOPHERS ->
     flat_map acquired_of (philosopher N 0) = [1%Z; 0%Z]
     /\ flat_map acquired_of (philosopher N 1) = [1%Z; 2%Z]
     /\ (exists n, acquired_by 0 tr = alternation n 1 0)
     /\ (exists n, acquired_by 1 tr = alternation n 1 2)).
Proof.
  intros HN R Hid. pose proof (run_wf N tr s HN R) as W.
  pose proof (acquired_alternates N tr s id HN R) as Ha.
  pose proof (fun k pc => second_needs_first N tr s k (mkThread id pc) HN R) as Hh.
  pose proof (acquired_round N id) as Hr.
  unfold first_choice, second_choice in Ha, Hh, Hr. cbn [th_id] in Hh.
  split; [|split; [|split; [|split; [|split]]]].
  - intros Hp. rewrite Hp in Ha, Hh, Hr. simpl in Ha, Hh, Hr. eauto.
  - intros Hp. destruct (Z.eqb_spec (Z.rem id 2) 0); [contradiction|]. eauto.
  - intros k t Hk Eid. destruct (wf_thread _ _ W k t Hk) as [E _].
    pose proof (run_thread_trace N tr s HN R id) as H. unfold thread_of in H.
    destruct (Z.ltb_spec id 0); [lia|].
    replace (Z.to_nat id) with k in H by lia. rewrite Hk in H.
    destruct H as [m H]. exists m. split; [exact H|].
    rewrite acquired_by_thread_trace, H, flat_map_app, flat_map_rounds. reflexivity.
  - intros Hn. pose proof (run_thread_trace N tr s HN R id) as H. rewrite Hn in H.
    rewrite acquired_by_thread_trace, H. reflexivity.
  - intros k t Hk Eid Hpc HL HR. subst id. split.
    + apply round_plays; assumption.
    + unfold acquired_by at 1. rewrite flat_map_app.
      fold (acquired_by (th_id t) tr).
      fold (acquired_by (th_id t) (map (Did (th_id t)) (philosopher N (th_id t)))).
      rewrite acquired_by_own. reflexivity.
  - intros ->. split; [reflexivity|]. split; [reflexivity|]. split.
    + apply (acquired_alternates NUM_PHILOSOPHERS tr s 0 HN R).
    + apply (acquired_alternates NUM_PHILOSOPHERS tr s 1 HN R).
Qed.

Lemma acquisition_order_witness :
  (2 <= NUM_PHILOSOPHERS)%Z /\ run NUM_PHILOSOPHERS handover_trace handover_state /\
  (0 <= 0 < NUM_PHILOSOPHERS)%Z /\
  (Z.rem 0 2 = 0%Z ->
     flat_map acquired_of (philosopher NUM_PHILOSOPHERS 0)
     = [rightChopstick NUM_PHILOSOPHERS 0; leftChopstick 0]
     /\ (exists n, acquired_by 0 handover_trace
                   = alternation n (rightChopstick NUM_PHILOSOPHERS 0) (leftChopstick 0))
     /\ (forall k pc, philosophers handover_state !! k = Some (mkThread 0 pc) ->
           fetch NUM_PHILOSOPHERS (mkThread 0 pc) = Some (Acquire (leftChopstick 0)) ->
           holds handover_trace 0 (rightChopstick NUM_PHILOSOPHERS 0) = true))
  /\ (Z.rem 0 2 <> 0%Z ->
     flat_map acquired_of (philosopher NUM_PHILOSOPHERS 0)
     = [leftChopstick 0; rightChopstick NUM_PHILOSOPHERS 0]
     /\ (exists n, acquired_by 0 handover_trace
                   = alternation n (leftChopstick 0) (rightChopstick NUM_PHILOSOPHERS 0))
     /\ (forall k pc, philosophers handover_state !! k = Some (mkThread 0 pc) ->
           fetch NUM_PHILOSOPHERS (mkThread 0 pc) = Some (Acquire (rightChopstick NUM_PHILOSOPHERS 0)) ->
           holds handover_trace 0 (leftChopstick 0) = true))
  /\ (forall k t, philosophers handover_state !! k = Some t -> th_id t = 0%Z ->
        exists m,
          thread_trace 0 handover_trace
          = concat (replicate m (philosopher NUM_PHILOSOPHERS 0))
            ++ take (th_pc t) (philosopher NUM_PHILOSOPHERS 0)
          /\ acquired_by 0 handover_trace
             = concat (replicate m (flat_map acquired_of (philosopher NUM_PHILOSOPHERS 0)))
               ++ flat_map acquired_of (take (th_pc t) (philosopher NUM_PHILOSOPHERS 0)))
  /\ (thread_of handover_state 0 = None -> acquired_by 0 handover_trace = [])
  /\ (forall k t, philosophers handover_state !! k = Some t -> th_id t = 0%Z ->
        th_pc t = 0%nat ->
        sem_at (chopsticks handover_state) (leftChopstick 0) = Some 1%Z ->
        sem_at (chopsticks handover_state) (rightChopstick NUM_PHILOSOPHERS 0) = Some 1%Z ->
        play NUM_PHILOSOPHERS (repeat (Philosopher k) 14) handover_state
        = Some (map (Did 0) (philosopher NUM_PHILOSOPHERS 0), handover_state)
        /\ acquired_by 0 (handover_trace ++ map (Did 0) (philosopher NUM_PHILOSOPHERS 0))
           = acquired_by 0 handover_trace ++ flat_map acquired_of (philosopher NUM_PHILOSOPHERS 0))
  /\ (NUM_PHILOSOPHERS = NUM_PHILOSOPHERS ->
     flat_map acquired_of (philosopher NUM_PHILOSOPHERS 0) = [1%Z; 0%Z]
     /\ flat_map acquired_of (philosopher NUM_PHILOSOPHERS 1) = [1%Z; 2%Z]
     /\ (exists n, acquired_by 0 handover_trace = alternation n 1 0)
     /\ (exists n, acquired_by 1 handover_trace = alternation n 1 2)).
Proof.
  assert (HN : (2 <= NUM_PHILOSOPHERS)%Z) by (unfold NUM_PHILOSOPHERS; lia).
  assert (R : run NUM_PHILOSOPHERS handover_trace handover_state)
    by (apply (play_init NUM_PHILOSOPHERS handover_schedule); reflexivity).
  assert (Hid : (0 <= 0 < NUM_PHILOSOPHERS)%Z) by (unfold NUM_PHILOSOPHERS; lia).
  split; [exact HN|]. split; [exact R|]. split; [exact Hid|].
  exact (acquisition_order NUM_PHILOSOPHERS handover_trace handover_state 0 HN R Hid).
Defined.
